(** * dev-mesh dashboard: the status-aggregation engine [get_status]

    A shallow embedding of [get_status] of [dashboard.py] and of the
    Python operations it relies on.

    - Python [str] values are [string]s, one character per code point
      below 256.
    - Values decoded by [json.loads] are terms of [json]; [None] is
      [JNull], a [float] is its 64-bit IEEE pattern.
    - A Python exception is a [Raise] in the [result] monad; statements are
      sequenced in source order so that the first failure is the one kept.
    - The two dictionaries the function builds, [health_map] and
      [upstream_map], are [gmap]s keyed by strings.
    - The file system ([os.path.exists]) and the builtin [float] are the
      two things taken from the environment: they are the fields of
      [env]. *)

From Stdlib Require Import ZArith Ascii String.
From stdpp Require Import gmap strings list.

Local Open Scope Z_scope.

(* ================================================================= *)
(** ** Exceptions and the result monad *)

Inductive exn : Type :=
| KeyError | TypeError | AttributeError | IndexError | ValueError.

Inductive result (A : Type) : Type :=
| Ok (a : A)
| Raise (e : exn).
Arguments Ok {A} a.
Arguments Raise {A} e.

Global Instance result_ret : MRet result := fun A a => Ok a.

Global Instance result_bind : MBind result := fun A B k m =>
  match m with
  | Ok a => k a
  | Raise e => Raise e
  end.

Definition succeeds {A : Type} (m : result A) : Prop := exists a, m = Ok a.

(** [for x in xs: st = body st x], stopping at the first exception. *)
Fixpoint for_each {A S : Type} (body : S -> A -> result S) (xs : list A) (st : S)
  : result S :=
  match xs with
  | [] => Ok st
  | x :: xs' => st' ← body st x; for_each body xs' st'
  end.

(* ================================================================= *)
(** ** Python strings *)

Module PyStr.

Definition dquote : ascii := "034"%char.

(** [s.startswith(pre)] *)
Fixpoint startswith (s pre : string) {struct pre} : bool :=
  match pre with
  | EmptyString => true
  | String p pre' =>
      match s with
      | EmptyString => false
      | String c s' => if Ascii.eqb c p then startswith s' pre' else false
      end
  end.

(** Line boundaries of [str.splitlines]: LF, VT, FF, CR, FS, GS, RS, NEL. *)
Definition is_linebreak (c : ascii) : bool :=
  match nat_of_ascii c with
  | 10 | 11 | 12 | 13 | 28 | 29 | 30 | 133 => true
  | _ => false
  end%nat.

(** [str.isspace] on one character: what [str.split()] splits on. *)
Definition isspace (c : ascii) : bool :=
  match nat_of_ascii c with
  | 9 | 10 | 11 | 12 | 13 | 28 | 29 | 30 | 31 | 32 | 133 | 160 => true
  | _ => false
  end%nat.

(** Put [c] in front of the piece being read. *)
Definition cons_hd (c : ascii) (l : list string) : list string :=
  match l with
  | [] => [String c EmptyString]
  | p :: ps => String c p :: ps
  end.

(** [s.splitlines()]: CR LF is one boundary, and no empty last line. *)
Fixpoint splitlines (s : string) : list string :=
  match s with
  | EmptyString => []
  | String c s' =>
      if is_linebreak c then
        EmptyString ::
          (if Ascii.eqb c "013" then
             match s' with
             | String c' s'' => if Ascii.eqb c' "010" then splitlines s'' else splitlines s'
             | EmptyString => splitlines s'
             end
           else splitlines s')
      else cons_hd c (splitlines s')
  end.

(** [s.split()]: the maximal runs of characters that are not white space. *)
Fixpoint split_ws (s : string) : list string :=
  match s with
  | EmptyString => []
  | String c s' =>
      if isspace c then split_ws s'
      else
        match s' with
        | EmptyString => [String c EmptyString]
        | String c' _ =>
            if isspace c' then String c EmptyString :: split_ws s'
            else cons_hd c (split_ws s')
        end
  end.

(** The scan of [s.split(sep)] for a non-empty [sep]: [skip] counts the
    characters of a separator just matched that are still to be passed. *)
Fixpoint split_go (sep s : string) (skip : nat) : list string :=
  match s with
  | EmptyString => [EmptyString]
  | String c s' =>
      match skip with
      | S k => split_go sep s' k
      | O =>
          if startswith s sep
          then EmptyString :: split_go sep s' (String.length sep - 1)
          else cons_hd c (split_go sep s' 0)
      end
  end.

(** [s.split(sep)]: an empty separator is a [ValueError]. *)
Definition split (s sep : string) : result (list string) :=
  match sep with
  | EmptyString => Raise ValueError
  | _ => Ok (split_go sep s 0)
  end.

(** The scan of [s.replace(old, new)] for a non-empty [old]. *)
Fixpoint replace_go (old new s : string) (skip : nat) : string :=
  match s with
  | EmptyString => EmptyString
  | String c s' =>
      match skip with
      | S k => replace_go old new s' k
      | O =>
          if startswith s old
          then new +:+ replace_go old new s' (String.length old - 1)
          else String c (replace_go old new s' 0)
      end
  end.

(** With an empty [old], [new] goes before every character and at the end. *)
Fixpoint intersperse (new s : string) : string :=
  match s with
  | EmptyString => new
  | String c s' => new +:+ String c (intersperse new s')
  end.

(** [s.replace(old, new)] *)
Definition replace (s old new : string) : string :=
  match old with
  | EmptyString => intersperse new s
  | _ => replace_go old new s 0
  end.

(** [l[i]] for [i >= 0] and [l[-1]] *)
Definition index {A : Type} (l : list A) (i : nat) : result A :=
  match l !! i with
  | Some x => Ok x
  | None => Raise IndexError
  end.

Definition index_last {A : Type} (l : list A) : result A :=
  match last l with
  | Some x => Ok x
  | None => Raise IndexError
  end.

End PyStr.

(* ================================================================= *)
(** ** Values decoded from JSON, and the Python operations on them *)

#[warnings="-register-all"]
Inductive json : Type :=
| JNull
| JBool (b : bool)
| JInt (n : Z)
| JFloat (bits : Z)
| JStr (s : string)
| JList (l : list json)
| JDict (d : list (string * json)).

(** The binding of key [k] in a decoded object; [json.loads] leaves each
    key once. *)
Fixpoint dict_lookup (d : list (string * json)) (k : string) : option json :=
  match d with
  | [] => None
  | (k', v) :: d' => if String.eqb k' k then Some v else dict_lookup d' k
  end.

(** Truth value of [v], as [or] and [if] test it: a float is false when it
    is plus or minus zero. *)
Definition truthy (v : json) : bool :=
  match v with
  | JNull => false
  | JBool b => b
  | JInt n => negb (n =? 0)
  | JFloat bits => negb (Z.land bits (Z.ones 63) =? 0)
  | JStr s => negb (String.eqb s EmptyString)
  | JList l => match l with [] => false | _ => true end
  | JDict d => match d with [] => false | _ => true end
  end.

(** [a or b] *)
Definition py_or (a b : json) : json := if truthy a then a else b.

(** [v.get(k, dflt)]: only a dict has the method. *)
Definition dict_get (v : json) (k : string) (dflt : json) : result json :=
  match v with
  | JDict d => Ok (default dflt (dict_lookup d k))
  | _ => Raise AttributeError
  end.

(** [v[k]] for a string [k] *)
Definition subscript (v : json) (k : string) : result json :=
  match v with
  | JDict d =>
      match dict_lookup d k with
      | Some x => Ok x
      | None => Raise KeyError
      end
  | _ => Raise TypeError
  end.

Fixpoint chars (s : string) : list json :=
  match s with
  | EmptyString => []
  | String c s' => JStr (String c EmptyString) :: chars s'
  end.

(** The items [for x in v] goes through: the elements of a list, the keys
    of a dict, the characters of a string. *)
Definition py_iter (v : json) : result (list json) :=
  match v with
  | JList l => Ok l
  | JDict d => Ok (map (fun kv => JStr (fst kv)) d)
  | JStr s => Ok (chars s)
  | _ => Raise TypeError
  end.

(** [v.replace(old, new)]: only a string has the method. *)
Definition str_replace (v : json) (old new : string) : result string :=
  match v with
  | JStr s => Ok (PyStr.replace s old new)
  | _ => Raise AttributeError
  end.

(** A field of a record of the output. *)
Definition field (v : json) (k : string) : option json :=
  match v with
  | JDict d => dict_lookup d k
  | _ => None
  end.

(* ================================================================= *)
(** ** The environment *)

(** [path_exists] is the state of the file system during one call;
    [py_float s] is the 64-bit pattern of [float(s)], or [None] where
    [float(s)] is a [ValueError]. *)
Record env : Type := {
  path_exists : string -> bool;
  py_float : string -> option Z
}.

(** [os.path.exists(p)]: the empty path names no file. *)
Definition os_path_exists (E : env) (p : string) : bool :=
  match p with
  | EmptyString => false
  | _ => path_exists E p
  end.

(** [float(s)] *)
Definition float_of_str (E : env) (s : string) : result Z :=
  match py_float E s with
  | Some bits => Ok bits
  | None => Raise ValueError
  end.

(** [val == 1] for a float [val]: its pattern is that of [1.0]. *)
Definition float_eq_one (bits : Z) : bool := bits =? 0x3FF0000000000000.

(** What the five fetches returned: [JNull] and [None] stand for the
    [None] of a failed [caddy_get] and [caddy_get_text]. *)
Record fetched : Type := {
  f_routes : json;
  f_upstreams : json;
  f_tls : json;
  f_dyn_dns : json;
  f_metrics : option string
}.

(* ================================================================= *)
(** ** [get_status] *)

Definition gauge_prefix : string := "caddy_reverse_proxy_upstreams_healthy{".

(** The text [upstream=] followed by a double quote. *)
Definition upstream_label : string :=
  Eval cbv in ("upstream=" +:+ String PyStr.dquote EmptyString).

Definition quote_str : string := String PyStr.dquote EmptyString.

(** The body of the [try]: the address and the health of one gauge line. *)
Definition parse_gauge (E : env) (line : string) : result (string * bool) :=
  parts ← PyStr.split line upstream_label;
  after ← PyStr.index parts 1;
  pieces ← PyStr.split after quote_str;
  addr ← PyStr.index pieces 0;
  tok ← PyStr.index_last (PyStr.split_ws line);
  val ← float_of_str E tok;
  Ok (addr, float_eq_one val).

(** One turn of the loop over the lines of the metrics text; [IndexError]
    and [ValueError] are the two exceptions the [except] clause catches. *)
Definition health_line (E : env) (health_map : gmap string bool) (line : string)
  : result (gmap string bool) :=
  if PyStr.startswith line gauge_prefix then
    match parse_gauge E line with
    | Ok (addr, b) => Ok (<[addr := b]> health_map)
    | Raise IndexError | Raise ValueError => Ok health_map
    | Raise e => Raise e
    end
  else Ok health_map.

Definition parse_health (E : env) (metrics_text : string) : result (gmap string bool) :=
  for_each (health_line E) (PyStr.splitlines metrics_text) ∅.

(** [upstream_map[u["address"]] = u]. The map is read with string keys
    only, so a binding under a key that is not a string is never seen; a
    list or a dict is not hashable. *)
Definition index_upstream (upstream_map : gmap string json) (u : json)
  : result (gmap string json) :=
  a ← subscript u "address";
  match a with
  | JStr s => Ok (<[s := u]> upstream_map)
  | JList _ | JDict _ => Raise TypeError
  | _ => Ok upstream_map
  end.

(** The loop that fills [hosts]. *)
Definition extend_hosts (hosts : list json) (m : json) : result (list json) :=
  h ← dict_get m "host" (JList []);
  xs ← py_iter h;
  Ok (hosts ++ xs).

(** The two nested loops that leave the selected backend in [sock]. *)
Definition scan_upstream (sock : json) (u : json) : result json :=
  dict_get u "dial" (JStr "").

Definition scan_handler (sock : json) (h : json) : result json :=
  ups ← dict_get h "upstreams" (JList []);
  us ← py_iter ups;
  for_each scan_upstream us sock.

Definition select_backend (route : json) : result json :=
  handle ← dict_get route "handle" (JList []);
  hs ← py_iter handle;
  for_each scan_handler hs (JStr "").

(** [sock.replace("unix/", "").replace("unix//", "/")] *)
Definition sock_file_of (sock : json) : result string :=
  s1 ← str_replace sock "unix/" "";
  Ok (PyStr.replace s1 "unix//" "/").

(** The body of the loop over the routes: the record appended to
    [services]. *)
Definition service_record (E : env) (health_map : gmap string bool)
    (upstream_map : gmap string json) (route : json) : result json :=
  route_id ← dict_get route "@id" (JStr "unknown");
  matches ← dict_get route "match" (JList []);
  ms ← py_iter matches;
  hosts ← for_each extend_hosts ms [];
  sock ← select_backend route;
  sock_file ← sock_file_of sock;
  match sock with
  | JStr sock_addr =>
      let sock_exists := os_path_exists E sock_file in
      let upstream_info := default (JDict []) (upstream_map !! sock_addr) in
      let healthy :=
        match health_map !! sock_addr with
        | Some b => b
        | None => sock_exists
        end in
      requests ← dict_get upstream_info "num_requests" (JInt 0);
      fails ← dict_get upstream_info "fails" (JInt 0);
      Ok (JDict [("id", route_id); ("hosts", JList hosts);
                 ("socket", JStr sock_file); ("socket_exists", JBool sock_exists);
                 ("healthy", JBool healthy); ("requests", requests);
                 ("fails", fails)])
  | _ => Raise AttributeError
  end.

Definition append_service (E : env) (health_map : gmap string bool)
    (upstream_map : gmap string json) (services : list json) (route : json)
  : result (list json) :=
  r ← service_record E health_map upstream_map route;
  Ok (services ++ [r]).

(** The comprehension over the policies. *)
Definition extend_subjects (acc : list json) (p : json) : result (list json) :=
  subjects ← dict_get p "subjects" (JList []);
  xs ← py_iter subjects;
  Ok (acc ++ xs).

Definition tls_domains_of (tls_config : json) : result json :=
  certificates ← dict_get tls_config "certificates" (JDict []);
  automate ← dict_get certificates "automate" (JList []);
  automation ← dict_get tls_config "automation" (JDict []);
  policies ← dict_get automation "policies" (JList []);
  if truthy automate then Ok automate
  else
    ps ← py_iter policies;
    subjects ← for_each extend_subjects ps [];
    Ok (JList subjects).

(** The fetched values after [or []], [or {}] and [or ""]. *)
Definition routes_of (f : fetched) : json := py_or (f_routes f) (JList []).
Definition upstreams_of (f : fetched) : json := py_or (f_upstreams f) (JList []).
Definition tls_config_of (f : fetched) : json := py_or (f_tls f) (JDict []).
Definition dyn_dns_of (f : fetched) : json := py_or (f_dyn_dns f) (JDict []).
Definition metrics_text_of (f : fetched) : string := default EmptyString (f_metrics f).

(** The dynamic DNS part of the value returned. *)
Definition dns_of (dyn_dns : json) : result json :=
  dns_domains ← dict_get dyn_dns "domains" (JDict []);
  dns_versions ← dict_get dyn_dns "versions" (JDict []);
  ipv4 ← dict_get dns_versions "ipv4" (JBool false);
  ipv6 ← dict_get dns_versions "ipv6" (JBool false);
  Ok (JDict [("domains", dns_domains); ("ipv4", ipv4); ("ipv6", ipv6)]).

Definition get_status (E : env) (f : fetched) : result json :=
  health_map ← parse_health E (metrics_text_of f);
  us ← py_iter (upstreams_of f);
  upstream_map ← for_each index_upstream us ∅;
  rs ← py_iter (routes_of f);
  services ← for_each (append_service E health_map upstream_map) rs [];
  tls_domains ← tls_domains_of (tls_config_of f);
  dns ← dns_of (dyn_dns_of f);
  Ok (JDict [("services", JList services);
             ("tls_domains", tls_domains);
             ("dns", dns)]).

(* ================================================================= *)
(** ** Shapes of the fetched values

    The admin API documents the shape of each payload. A value has the
    shape when every field that is present has the documented type; any
    field may be missing. *)

Definition opt_field (d : list (string * json)) (k : string) (P : json -> bool) : bool :=
  match dict_lookup d k with
  | Some v => P v
  | None => true
  end.

Definition has_field (d : list (string * json)) (k : string) : bool :=
  match dict_lookup d k with
  | Some _ => true
  | None => false
  end.

Definition dict_where (P : list (string * json) -> bool) (v : json) : bool :=
  match v with
  | JDict d => P d
  | _ => false
  end.

Definition list_where (P : json -> bool) (v : json) : bool :=
  match v with
  | JList l => forallb P l
  | _ => false
  end.

Definition is_str (v : json) : bool :=
  match v with
  | JStr _ => true
  | _ => false
  end.

Definition any_value (v : json) : bool := true.

(** An entry of an [upstreams] list of a handler: [{"dial": str}]. *)
Definition dial_entry_ok : json -> bool :=
  dict_where (fun d => opt_field d "dial" is_str).

Definition handler_ok : json -> bool :=
  dict_where (fun d => opt_field d "upstreams" (list_where dial_entry_ok)).

Definition matcher_ok : json -> bool :=
  dict_where (fun d => opt_field d "host" (list_where any_value)).

Definition route_ok : json -> bool :=
  dict_where (fun d =>
    opt_field d "match" (list_where matcher_ok) &&
    opt_field d "handle" (list_where handler_ok)).

(** A record of the upstream statistics: [{"address": str, ...}]. *)
Definition upstream_ok : json -> bool :=
  dict_where (fun d => opt_field d "address" is_str).

Definition has_address : json -> bool :=
  dict_where (fun d => has_field d "address").

Definition policy_ok : json -> bool :=
  dict_where (fun d => opt_field d "subjects" (list_where any_value)).

Definition tls_ok : json -> bool :=
  dict_where (fun d =>
    opt_field d "certificates"
      (dict_where (fun c => opt_field c "automate" (list_where any_value))) &&
    opt_field d "automation"
      (dict_where (fun a => opt_field a "policies" (list_where policy_ok)))).

Definition dyn_dns_ok : json -> bool :=
  dict_where (fun d => opt_field d "versions" (dict_where (fun _ => true))).

(** The five fetched values have their shapes; a fetch that failed has the
    shape of its default. *)
Definition fetched_ok (f : fetched) : bool :=
  list_where route_ok (routes_of f) &&
  list_where upstream_ok (upstreams_of f) &&
  tls_ok (tls_config_of f) &&
  dyn_dns_ok (dyn_dns_of f).

(** All five fetches failed. *)
Definition nothing_fetched : fetched :=
  {| f_routes := JNull; f_upstreams := JNull; f_tls := JNull;
     f_dyn_dns := JNull; f_metrics := None |}.

(** The [id] fields of the records of an output, in order. *)
Definition service_ids (out : json) : list json :=
  match field out "services" with
  | Some (JList recs) => omap (fun r => field r "id") recs
  | _ => []
  end.

(** An environment for the examples: no file exists, and [float] reads the
    two gauge values [0] and [1]. *)
Definition bare_env : env :=
  {| path_exists := fun _ => false;
     py_float := fun s =>
       if String.eqb s "1" then Some 0x3FF0000000000000
       else if String.eqb s "0" then Some 0
       else None |}.

(** The route of the end-to-end scenario. *)
Definition api_dial : string := "unix//tmp/caddy-dev/api.sock".

Definition api_route : json :=
  JDict [("@id", JStr "api");
         ("match", JList [JDict [("host", JList [JStr "api.example.com"])]]);
         ("handle", JList [JDict [("handler", JStr "reverse_proxy");
                                  ("upstreams", JList [JDict [("dial", JStr api_dial)]])]])].

(** A health-gauge line: the gauge name, the [upstream] label with the
    address between double quotes, the rest of the label set up to its
    closing brace, a space and the value. *)
Definition gauge_line_with (addr more value : string) : string :=
  gauge_prefix +:+ upstream_label +:+ addr +:+ quote_str +:+ more +:+ String " " value.

(** The line as the proxy writes it, with [upstream] as its only label. *)
Definition gauge_line (addr value : string) : string :=
  gauge_line_with addr "}" value.

Definition newline : string := String "010" EmptyString.

(** The identifier a route is listed under. *)
Definition route_id_of (route : json) : json :=
  default (JStr "unknown") (field route "@id").

(** The rule of the specification for the path probed: a leading [unix/]
    is dropped, and nothing else changes. *)
Definition prefix_rewrite (sock : string) : string :=
  match sock with
  | String "u" (String "n" (String "i" (String "x" (String "/" rest)))) => rest
  | _ => sock
  end.

(** The handlers of a route, the entries of their [upstreams] lists in
    scan order, and the dial targets these entries declare. *)
Definition handlers_of (route : json) : list json :=
  match field route "handle" with
  | Some (JList hs) => hs
  | _ => []
  end.

Definition entries_of (h : json) : list json :=
  match field h "upstreams" with
  | Some (JList us) => us
  | _ => []
  end.

Definition upstream_entries (route : json) : list json :=
  concat (map entries_of (handlers_of route)).

Definition declared_dials (route : json) : list json :=
  omap (fun u => field u "dial") (upstream_entries route).

Definition declares_dial : json -> bool :=
  dict_where (fun d => has_field d "dial").

(** What the scan reads from one entry. *)
Definition dial_or_empty (u : json) : json :=
  default (JStr "") (field u "dial").

(** The part of the shape of a route that the scan for the backend reads. *)
Definition handlers_ok : json -> bool :=
  dict_where (fun d => opt_field d "handle" (list_where handler_ok)).

(** The subjects listed for automation, the policies, and the subjects of
    one policy. *)
Definition automate_of (tls_config : json) : list json :=
  match field tls_config "certificates" with
  | Some c => match field c "automate" with
              | Some (JList l) => l
              | _ => []
              end
  | None => []
  end.

Definition policies_of (tls_config : json) : list json :=
  match field tls_config "automation" with
  | Some a => match field a "policies" with
              | Some (JList l) => l
              | _ => []
              end
  | None => []
  end.

Definition subjects_of (policy : json) : list json :=
  match field policy "subjects" with
  | Some (JList l) => l
  | _ => []
  end.

(** A TLS configuration with three policies, the second without subjects. *)
Definition policies_tls : json :=
  JDict [("automation",
          JDict [("policies",
                  JList [JDict [("subjects", JList [JStr "*.a.example.dev"])];
                         JDict [("issuers", JList [])];
                         JDict [("subjects", JList [JStr "b.example.dev";
                                                    JStr "c.example.dev"])]])])].

Definition is_dict : json -> bool := dict_where (fun _ => true).

(** The record expected for [api_route] when nothing is known of its
    backend. *)
Definition api_record : json :=
  JDict [("id", JStr "api"); ("hosts", JList [JStr "api.example.com"]);
         ("socket", JStr "/tmp/caddy-dev/api.sock"); ("socket_exists", JBool false);
         ("healthy", JBool false); ("requests", JInt 0); ("fails", JInt 0)].

(* ================================================================= *)
(** ** Metrics texts

    The text the proxy serves, as the specification describes it: lines
    ended by a newline, where a line is either a health gauge of one
    upstream or any other line (a comment, another metric). *)







Fixpoint ends_with (s suffix : string) : bool :=
  String.eqb s suffix ||
  match s with
  | EmptyString => false
  | String _ s' => ends_with s' suffix
  end.








(** [needle in s] *)
Fixpoint contains (s needle : string) : bool :=
  PyStr.startswith s needle ||
  match s with
  | EmptyString => false
  | String _ s' => contains s' needle
  end.

(* ================================================================= *)
(** ** The admin API: [caddy_get] and [caddy_get_text]

    A request either fails ([urlopen] or [read] raises: no connection, a
    timeout, an HTTP error status) or is answered with a status and a body.
    [json_loads] and [utf8_decode] are [json.loads] and [bytes.decode],
    [None] where they raise. *)

Inductive http_reply : Type :=
| Failed
| Reply (status : Z) (body : string).

Record admin_api : Type := {
  urlopen : string -> http_reply;
  json_loads : string -> option json;
  utf8_decode : string -> option string
}.

Definition CADDY_ADMIN : string := "http://localhost:2019".
Definition SOCK_DIR : string := "/tmp/caddy-dev".
Definition ROUTE_ID : string := "dev-mesh".

(** [os.path.join(a, b)] *)
Definition os_path_join (a b : string) : string :=
  if PyStr.startswith b "/" then b
  else if String.eqb a EmptyString || ends_with a "/" then a +:+ b
  else a +:+ "/" +:+ b.

Definition SOCK_PATH : string := os_path_join SOCK_DIR "dev-mesh.sock".

(** Every exception is caught and gives [None]; so does a status other
    than 200. *)
Definition caddy_get (A : admin_api) (path : string) : json :=
  match urlopen A (CADDY_ADMIN +:+ path) with
  | Reply status body =>
      if status =? 200 then
        match json_loads A body with
        | Some v => v
        | None => JNull
        end
      else JNull
  | Failed => JNull
  end.

Definition caddy_get_text (A : admin_api) (path : string) : option string :=
  match urlopen A (CADDY_ADMIN +:+ path) with
  | Reply status body => if status =? 200 then utf8_decode A body else None
  | Failed => None
  end.

(** The five fetches at the head of [get_status]. *)
Definition fetch_all (A : admin_api) : fetched :=
  {| f_routes := caddy_get A "/config/apps/http/servers/srv0/routes";
     f_upstreams := caddy_get A "/reverse_proxy/upstreams";
     f_tls := caddy_get A "/config/apps/tls/";
     f_dyn_dns := caddy_get A "/config/apps/dynamic_dns/";
     f_metrics := caddy_get_text A "/metrics" |}.

(** [get_status()] against an admin API. *)
Definition get_status_from (A : admin_api) (E : env) : result json :=
  get_status E (fetch_all A).

(* ================================================================= *)
(** ** [discover_domain] *)

(** [s[n:]] *)
Fixpoint str_drop (n : nat) (s : string) : string :=
  match n, s with
  | O, _ => s
  | S _, EmptyString => EmptyString
  | S n', String _ s' => str_drop n' s'
  end.

(** [v[0]] *)
Definition subscript0 (v : json) : result json :=
  match v with
  | JList l => PyStr.index l 0
  | JStr s =>
      match s with
      | String c _ => Ok (JStr (String c EmptyString))
      | EmptyString => Raise IndexError
      end
  | JDict _ => Raise KeyError
  | _ => Raise TypeError
  end.

(** One turn of the comprehension
    [[p["subjects"][0] for p in policies if p.get("subjects")]]. *)
Definition first_subject (acc : list json) (p : json) : result (list json) :=
  guard ← dict_get p "subjects" JNull;
  if truthy guard then
    subjects ← subscript p "subjects";
    x ← subscript0 subjects;
    Ok (acc ++ [x])
  else Ok acc.

(** The loop [for s in subjects: if s.startswith("*."): return s[2:]]. *)
Fixpoint first_wildcard (subjects : list json) : result (option string) :=
  match subjects with
  | [] => Ok None
  | JStr s :: rest =>
      if PyStr.startswith s "*." then Ok (Some (str_drop 2 s))
      else first_wildcard rest
  | _ :: _ => Raise AttributeError
  end.

(** The body of [discover_domain], given what [caddy_get] returned. *)
Definition discover_domain_in (tls : json) : result (option string) :=
  if truthy tls then
    certificates ← dict_get tls "certificates" (JDict []);
    automate ← dict_get certificates "automate" JNull;
    subjects ←
      (if truthy automate then Ok automate
       else
         automation ← dict_get tls "automation" (JDict []);
         policies ← dict_get automation "policies" (JList []);
         ps ← py_iter policies;
         firsts ← for_each first_subject ps [];
         Ok (JList firsts));
    items ← py_iter subjects;
    first_wildcard items
  else Ok None.

Definition discover_domain (A : admin_api) : result (option string) :=
  discover_domain_in (caddy_get A "/config/apps/tls/").

(** The subjects [discover_domain] looks at in a TLS configuration of the
    documented shape: the list given for automation when it is not empty,
    otherwise the first subject of every policy that has subjects. *)
Definition first_subjects (tls_config : json) : list json :=
  omap (fun p => head (subjects_of p)) (policies_of tls_config).

Definition candidate_subjects (tls_config : json) : list json :=
  match automate_of tls_config with
  | [] => first_subjects tls_config
  | subject :: more => subject :: more
  end.

Definition is_wildcard (v : json) : bool :=
  match v with
  | JStr s => PyStr.startswith s "*."
  | _ => false
  end.

(* ================================================================= *)
(** ** [register_with_caddy] *)

(** The route that [register_with_caddy] posts, before [json.dumps]. *)
Definition registration_route (domain : string) : json :=
  JDict [("@id", JStr ROUTE_ID);
         ("match", JList [JDict [("host", JList [JStr (ROUTE_ID +:+ "." +:+ domain)])]]);
         ("handle", JList [JDict [("handler", JStr "reverse_proxy");
                                  ("upstreams",
                                   JList [JDict [("dial", JStr ("unix/" +:+ SOCK_PATH))]])]])].

(* ================================================================= *)
(** ** Readings of the fetched values used in the statements *)

(** The last record of the upstream statistics whose address is [a]. *)
Definition address_is (a : string) (u : json) : bool :=
  match field u "address" with
  | Some (JStr s) => String.eqb s a
  | _ => false
  end.

Fixpoint last_with_address (a : string) (us : list json) : option json :=
  match us with
  | [] => None
  | u :: us' =>
      match last_with_address a us' with
      | Some v => Some v
      | None => if address_is a u then Some u else None
      end
  end.

(** A counter of an upstream record, zero when there is no record or no
    counter. *)
Definition counter_of (info : option json) (k : string) : json :=
  default (JInt 0) (info ≫= fun u => field u k).

(** The matchers of a route and the host names of a matcher. *)
Definition matchers_of (route : json) : list json :=
  match field route "match" with
  | Some (JList ms) => ms
  | _ => []
  end.

Definition hosts_of (m : json) : list json :=
  match field m "host" with
  | Some (JList hs) => hs
  | _ => []
  end.

(** A record of the output: the seven fields, in order, with a string for
    the socket and booleans for the two flags. *)
Definition is_service_record (r : json) : Prop :=
  exists route_id hosts socket socket_exists healthy requests fails,
    r = JDict [("id", route_id); ("hosts", JList hosts);
               ("socket", JStr socket); ("socket_exists", JBool socket_exists);
               ("healthy", JBool healthy); ("requests", requests);
               ("fails", fails)].

(** An admin API that answers nothing. *)
Definition api_down : admin_api :=
  {| urlopen := fun _ => Failed;
     json_loads := fun _ => None;
     utf8_decode := fun _ => None |}.

(** A subject that is a string and no wildcard. *)
Definition plain_subject (v : json) : bool := is_str v && negb (is_wildcard v).

(** A request that fails or is answered with a status other than 200. *)
Definition no_answer (r : http_reply) : bool :=
  match r with
  | Failed => true
  | Reply status _ => negb (status =? 200)
  end.

(** A line that is no gauge line, or a gauge line without the label, or
    one whose last token [float] rejects. *)
Definition skipped_line (E : env) (line : string) : bool :=
  negb (PyStr.startswith line gauge_prefix) ||
  negb (contains line upstream_label) ||
  match last (PyStr.split_ws line) with
  | Some tok => match py_float E tok with Some _ => false | None => true end
  | None => true
  end.

(* ================================================================= *)
(** ** Example data *)

Definition demo_routes : list json :=
  [api_route;
   registration_route "a.example.dev";
   JDict [("@id", JStr "static");
          ("match", JList [JDict [("host", JList [JStr "files.example.dev"])];
                           JDict [("path", JList [JStr "/x"])];
                           JDict [("host", JList [JStr "www.example.dev"; JStr "example.dev"])]]);
          ("handle", JList [JDict [("handler", JStr "file_server")]])]].

Definition demo_upstreams : list json :=
  [JDict [("address", JStr api_dial); ("num_requests", JInt 3); ("fails", JInt 1)];
   JDict [("address", JStr "localhost:8080"); ("num_requests", JInt 5); ("fails", JInt 0)];
   JDict [("address", JStr api_dial); ("num_requests", JInt 7)]].

Definition demo_fetched : fetched :=
  {| f_routes := JList demo_routes;
     f_upstreams := JList demo_upstreams;
     f_tls := policies_tls;
     f_dyn_dns := JDict [("versions", JDict [("ipv4", JBool true)])];
     f_metrics := Some (gauge_line api_dial "1" +:+ newline) |}.

(** A TLS configuration with a list of subjects for automation. *)
Definition automate_tls : json :=
  JDict [("certificates",
          JDict [("automate", JList [JStr "mesh.example.dev"; JStr "*.a.example.dev";
                                     JStr "*.b.example.dev"])])].

(** A TLS configuration whose only wildcard is the second subject of its
    policy. *)
Definition second_subject_tls : json :=
  JDict [("automation",
          JDict [("policies",
                  JList [JDict [("subjects", JList [JStr "a.example.dev";
                                                    JStr "*.a.example.dev"])]])])].

(** What [get_status] returns on [demo_fetched] when no file exists. *)
Definition demo_output : json :=
  JDict [("services",
          JList [JDict [("id", JStr "api"); ("hosts", JList [JStr "api.example.com"]);
                        ("socket", JStr "/tmp/caddy-dev/api.sock");
                        ("socket_exists", JBool false); ("healthy", JBool true);
                        ("requests", JInt 7); ("fails", JInt 0)];
                 JDict [("id", JStr "dev-mesh");
                        ("hosts", JList [JStr "dev-mesh.a.example.dev"]);
                        ("socket", JStr "/tmp/caddy-dev/dev-mesh.sock");
                        ("socket_exists", JBool false); ("healthy", JBool false);
                        ("requests", JInt 0); ("fails", JInt 0)];
                 JDict [("id", JStr "static");
                        ("hosts", JList [JStr "files.example.dev"; JStr "www.example.dev";
                                         JStr "example.dev"]);
                        ("socket", JStr ""); ("socket_exists", JBool false);
                        ("healthy", JBool false); ("requests", JInt 0);
                        ("fails", JInt 0)]]);
         ("tls_domains", JList [JStr "*.a.example.dev"; JStr "b.example.dev";
                                JStr "c.example.dev"]);
         ("dns", JDict [("domains", JDict []); ("ipv4", JBool true);
                        ("ipv6", JBool false)])].

(** A route of the documented shape with two handlers that declare the
    dial targets [a.sock] and [b.sock], the second handler having a further
    upstream entry without [dial]. *)
Definition reset_route : json :=
  JDict [("handle",
          JList [JDict [("upstreams", JList [JDict [("dial", JStr "unix//tmp/a.sock")]])];
                 JDict [("upstreams",
                         JList [JDict [("dial", JStr "unix//tmp/b.sock")];
                                JDict [("lookup_srv", JStr "_api._tcp.example.dev")]])]])].


(* ================================================================= *)
(** * Properties *)

(** ** The string operations on examples *)

Example splitlines_example :
  PyStr.splitlines ("a" +:+ newline +:+ newline +:+ "b" +:+ String "013" newline +:+ "c")
  = ["a"; ""; "b"; "c"].
Proof. reflexivity. Qed.

Example split_ws_example : PyStr.split_ws "  ab  c d " = ["ab"; "c"; "d"].
Proof. reflexivity. Qed.

Example split_example : PyStr.split "a--b----c" "--" = Ok ["a"; "b"; ""; "c"].
Proof. reflexivity. Qed.

Example split_overlap_example : PyStr.split "aaa" "aa" = Ok [""; "a"].
Proof. reflexivity. Qed.

Example replace_example : PyStr.replace "ununix/ix//tmp/a.sock" "unix/" "" = "unix//tmp/a.sock".
Proof. reflexivity. Qed.

Example parse_gauge_example :
  parse_gauge bare_env (gauge_line api_dial "1") = Ok (api_dial, true).
Proof. reflexivity. Qed.

(** ** The result monad and the loops *)

Lemma bind_ok_inv {A B : Type} (m : result A) (k : A -> result B) (b : B) :
  m ≫= k = Ok b -> exists a, m = Ok a /\ k a = Ok b.
Proof. destruct m as [a|e]; simpl; [eauto | discriminate]. Qed.

(** Split a hypothesis [x ← m; k = Ok b] into its steps. *)
Ltac ok_inv H :=
  repeat match type of H with
  | mbind _ _ = Ok _ =>
      let a := fresh "a" in
      let Ha := fresh "Hstep" in
      apply bind_ok_inv in H as (a & Ha & H)
  end.

(** A loop that appends one computed item per turn is a map. *)
Lemma for_each_append {A B : Type} (g : A -> result B) (xs : list A) (acc out : list B) :
  for_each (fun acc x => r ← g x; Ok (acc ++ [r])) xs acc = Ok out <->
  exists rs, out = acc ++ rs /\ Forall2 (fun x r => g x = Ok r) xs rs.
Proof.
  revert acc out. induction xs as [|x xs IH]; intros acc out; simpl.
  - split.
    + intros [= <-]. exists []. split; [by rewrite app_nil_r | constructor].
    + intros (rs & -> & Hrs). inversion Hrs. by rewrite app_nil_r.
  - split.
    + intros H. apply bind_ok_inv in H as (acc' & Hacc & H).
      apply bind_ok_inv in Hacc as (r & Hr & [= <-]).
      apply IH in H as (rs & -> & Hrs).
      exists (r :: rs). split; [by rewrite <- app_assoc | by constructor].
    + intros (rs & -> & Hrs). inversion Hrs as [|? r ? rs' Hr Hrs']; subst.
      rewrite Hr. simpl. apply IH. exists rs'. split; [by rewrite <- app_assoc | done].
Qed.

(** ** The steps of [get_status] *)

Lemma get_status_inv (E : env) (f : fetched) (out : json) :
  get_status E f = Ok out ->
  exists hm us um rs services tls dns,
    parse_health E (metrics_text_of f) = Ok hm /\
    py_iter (upstreams_of f) = Ok us /\
    for_each index_upstream us ∅ = Ok um /\
    py_iter (routes_of f) = Ok rs /\
    Forall2 (fun route r => service_record E hm um route = Ok r) rs services /\
    tls_domains_of (tls_config_of f) = Ok tls /\
    dns_of (dyn_dns_of f) = Ok dns /\
    out = JDict [("services", JList services); ("tls_domains", tls); ("dns", dns)].
Proof.
  unfold get_status. intros H. ok_inv H. injection H as <-.
  match goal with
  | Hs : for_each (append_service _ _ _) _ _ = Ok _ |- _ =>
      apply (for_each_append (service_record E _ _)) in Hs as (recs & -> & Hrecs)
  end.
  eauto 20.
Qed.

(** The record of a route, when the loop body runs to its end. *)
Lemma service_record_inv (E : env) (hm : gmap string bool) (um : gmap string json)
    (route r : json) :
  service_record E hm um route = Ok r ->
  exists route_id hosts sock sock_file requests fails,
    dict_get route "@id" (JStr "unknown") = Ok route_id /\
    select_backend route = Ok (JStr sock) /\
    sock_file_of (JStr sock) = Ok sock_file /\
    r = JDict [("id", route_id); ("hosts", JList hosts);
               ("socket", JStr sock_file);
               ("socket_exists", JBool (os_path_exists E sock_file));
               ("healthy", JBool (match hm !! sock with
                                  | Some b => b
                                  | None => os_path_exists E sock_file
                                  end));
               ("requests", requests); ("fails", fails)].
Proof.
  unfold service_record. intros H. ok_inv H.
  match goal with a : json, Hs : select_backend _ = Ok ?a |- _ =>
    destruct a; try discriminate
  end.
  ok_inv H. injection H as <-. eauto 15.
Qed.

(** ** C1: the health verdict *)

(** C1. In one pass, for every route the [healthy] field of its record is
    the boolean the health map holds under the route's dial string when
    that key is present, and the result of the existence probe
    ([socket_exists]) otherwise; it is a boolean in both cases. *)
Theorem healthy_from_metrics_else_probe (E : env) (f : fetched) (out : json)
    (hm : gmap string bool) (rs : list json) :
  get_status E f = Ok out ->
  parse_health E (metrics_text_of f) = Ok hm ->
  py_iter (routes_of f) = Ok rs ->
  exists recs,
    field out "services" = Some (JList recs) /\
    Forall2 (fun route r =>
      exists sock sock_file,
        select_backend route = Ok (JStr sock) /\
        sock_file_of (JStr sock) = Ok sock_file /\
        field r "socket_exists" = Some (JBool (os_path_exists E sock_file)) /\
        field r "healthy" =
          Some (JBool (match hm !! sock with
                       | Some b => b
                       | None => os_path_exists E sock_file
                       end)))
      rs recs.
Proof.
  intros Hout Hhm Hrs.
  apply get_status_inv in Hout
    as (hm' & us & um & rs' & recs & tls & dns
        & Hhm' & _ & _ & Hrs' & Hrecs & _ & _ & ->).
  rewrite Hhm in Hhm'. injection Hhm' as <-.
  rewrite Hrs in Hrs'. injection Hrs' as <-.
  exists recs. split; [reflexivity|].
  eapply Forall2_impl; [exact Hrecs|].
  intros route r Hr. simpl in Hr.
  apply service_record_inv in Hr
    as (rid & hosts & sock & sf & rq & fl & _ & Hsock & Hsf & ->).
  exists sock, sf. by repeat split.
Qed.

Lemma healthy_from_metrics_else_probe_witness :
  exists recs,
    field (JDict [("services",
                   JList [JDict [("id", JStr "api");
                                 ("hosts", JList [JStr "api.example.com"]);
                                 ("socket", JStr "/tmp/caddy-dev/api.sock");
                                 ("socket_exists", JBool false);
                                 ("healthy", JBool true);
                                 ("requests", JInt 0); ("fails", JInt 0)]]);
                  ("tls_domains", JList []);
                  ("dns", JDict [("domains", JDict []); ("ipv4", JBool false);
                                 ("ipv6", JBool false)])])
          "services" = Some (JList recs) /\
    Forall2 (fun route r =>
      exists sock sock_file,
        select_backend route = Ok (JStr sock) /\
        sock_file_of (JStr sock) = Ok sock_file /\
        field r "socket_exists" = Some (JBool (os_path_exists bare_env sock_file)) /\
        field r "healthy" =
          Some (JBool (match ({[ api_dial := true ]} : gmap string bool) !! sock with
                       | Some b => b
                       | None => os_path_exists bare_env sock_file
                       end)))
      [api_route] recs.
Proof.
  apply (healthy_from_metrics_else_probe bare_env
           {| f_routes := JList [api_route]; f_upstreams := JNull; f_tls := JNull;
              f_dyn_dns := JNull; f_metrics := Some (gauge_line api_dial "1" +:+ newline) |});
    vm_compute; reflexivity.
Defined.

(** ** C3: nothing could be fetched *)

(** C3. When all five fetches fail, [get_status] returns the empty
    aggregate: no services, no TLS domains, no DNS domains, and both IP
    version flags false. *)
Theorem get_status_nothing_fetched (E : env) :
  get_status E nothing_fetched =
  Ok (JDict [("services", JList []);
             ("tls_domains", JList []);
             ("dns", JDict [("domains", JDict []); ("ipv4", JBool false);
                            ("ipv6", JBool false)])]).
Proof. reflexivity. Qed.

(** ** C2: an upstream record without an address *)

(** A record of the upstream statistics that lacks its [address] field
    makes [get_status] raise [KeyError]: the subscript [u["address"]] is
    the one lookup without a default. *)
Lemma get_status_raises_without_address :
  get_status bare_env
    {| f_routes := JNull;
       f_upstreams := JList [JDict [("num_requests", JInt 3); ("fails", JInt 0)]];
       f_tls := JNull; f_dyn_dns := JNull; f_metrics := None |}
  = Raise KeyError /\
  ~ succeeds (get_status bare_env
    {| f_routes := JNull;
       f_upstreams := JList [JDict [("num_requests", JInt 3); ("fails", JInt 0)]];
       f_tls := JNull; f_dyn_dns := JNull; f_metrics := None |}).
Proof. split; [reflexivity|]. intros [out Hout]. discriminate Hout. Qed.

(** ** C8: the path that is probed *)

(** C8. [replace] rewrites every occurrence of [unix/], not only a leading
    one: a later path component named [unix] is lost, with or without the
    prefix in front. *)
Theorem sock_file_rewrites_inner_occurrences :
  sock_file_of (JStr "unix//tmp/unix/api.sock") = Ok "/tmp/api.sock" /\
  prefix_rewrite "unix//tmp/unix/api.sock" = "/tmp/unix/api.sock" /\
  sock_file_of (JStr "/srv/unix/app.sock") = Ok "/srv/app.sock" /\
  prefix_rewrite "/srv/unix/app.sock" = "/srv/unix/app.sock".
Proof. repeat split. Qed.

Lemma replace_go_absent (old new s : string) :
  contains s old = false -> PyStr.replace_go old new s 0 = s.
Proof.
  induction s as [|c s IH]; [reflexivity|].
  cbn [contains PyStr.replace_go]. intros H. apply orb_false_elim in H as [-> H].
  by rewrite (IH H).
Qed.

Lemma replace_go_skip (old new x s : string) :
  PyStr.replace_go old new (x +:+ s) (String.length x) = PyStr.replace_go old new s 0.
Proof. induction x as [|c x IH]; [reflexivity | exact IH]. Qed.

Lemma startswith_longer (s : string) :
  PyStr.startswith s "unix//" = true -> PyStr.startswith s "unix/" = true.
Proof.
  intros H.
  do 5 (destruct s as [|? s]; [discriminate H|];
        cbn [PyStr.startswith] in H |- *;
        match type of H with
        | (if ?b then _ else _) = true => destruct b; [|discriminate H]
        end).
  reflexivity.
Qed.

Lemma contains_longer (s : string) :
  contains s "unix/" = false -> contains s "unix//" = false.
Proof.
  induction s as [|c s IH]; [reflexivity|].
  cbn [contains]. intros H. apply orb_false_elim in H as [Hs H].
  rewrite (IH H), orb_false_r.
  destruct (PyStr.startswith (String c s) "unix//") eqn:Hl; [|reflexivity].
  apply startswith_longer in Hl. congruence.
Qed.

(** Where [unix/] occurs at the front only, or not at all, the path probed
    is the one the prefix rule gives. *)
Lemma sock_file_prefix_rewrite (sock : string) :
  contains (prefix_rewrite sock) "unix/" = false ->
  sock_file_of (JStr sock) = Ok (prefix_rewrite sock).
Proof.
  intros H. unfold sock_file_of, str_replace. cbn [mbind result_bind]. f_equal.
  assert (H1 : PyStr.replace sock "unix/" "" = prefix_rewrite sock).
  { unfold PyStr.replace.
    destruct (PyStr.startswith sock "unix/") eqn:Hs.
    - do 5 (destruct sock as [|? sock]; [discriminate Hs|];
            cbn [PyStr.startswith] in Hs;
            match type of Hs with
            | (if Ascii.eqb ?x ?y then _ else _) = true =>
                destruct (Ascii.eqb_spec x y) as [->|_]; [|discriminate Hs]
            end).
      cbn [prefix_rewrite] in H |- *.
      change (PyStr.replace_go "unix/" "" (String "u" (String "n" (String "i" (String "x" (String "/" sock))))) 0)
        with (PyStr.replace_go "unix/" "" ("nix/" +:+ sock) (String.length "nix/")).
      rewrite replace_go_skip. by apply replace_go_absent.
    - assert (Hp : prefix_rewrite sock = sock).
      { do 5 (destruct sock as [|? sock]; [reflexivity|];
              cbn [PyStr.startswith] in Hs;
              match type of Hs with
              | (if Ascii.eqb ?x ?y then _ else _) = false =>
                  destruct (Ascii.eqb_spec x y) as [->|Hne];
                  [|cbn [prefix_rewrite];
                    repeat match goal with
                    | |- context [match ?a with Ascii _ _ _ _ _ _ _ _ => _ end] =>
                        destruct a as [[] [] [] [] [] [] [] []]; try reflexivity;
                        try (exfalso; apply Hne; reflexivity)
                    end]
              end).
        discriminate Hs. }
      rewrite Hp in *. by apply replace_go_absent. }
  rewrite H1. unfold PyStr.replace. apply replace_go_absent. by apply contains_longer.
Qed.

(** ** C4: the identifiers of the records *)

Lemma service_ids_route_ids (E : env) (f : fetched) (out : json) (rs : list json) :
  get_status E f = Ok out ->
  py_iter (routes_of f) = Ok rs ->
  service_ids out = map route_id_of rs.
Proof.
  intros Hout Hrs.
  apply get_status_inv in Hout
    as (hm & us & um & rs' & recs & tls & dns
        & _ & _ & _ & Hrs' & Hrecs & _ & _ & ->).
  rewrite Hrs in Hrs'. injection Hrs' as <-. clear Hrs.
  unfold service_ids. simpl.
  induction Hrecs as [|route r rs recs Hr _ IH]; [reflexivity|].
  simpl. rewrite <- IH.
  apply service_record_inv in Hr
    as (rid & hosts & sock & sf & rq & fl & Hid & _ & _ & ->).
  simpl. f_equal.
  destruct route; try discriminate. simpl in Hid. by injection Hid as <-.
Qed.

(** C4 (as amended). The identifiers of the records of one pass are those
    of the routes, in order, with ["unknown"] for a route that has none;
    so they are pairwise distinct exactly when these are. *)
Theorem service_ids_distinct_iff (E : env) (f : fetched) (out : json) (rs : list json) :
  get_status E f = Ok out ->
  py_iter (routes_of f) = Ok rs ->
  service_ids out = map route_id_of rs /\
  (NoDup (service_ids out) <-> NoDup (map route_id_of rs)).
Proof.
  intros Hout Hrs. rewrite (service_ids_route_ids E f out rs Hout Hrs). tauto.
Qed.

Lemma service_ids_distinct_iff_witness :
  let out :=
    JDict [("services",
            JList [JDict [("id", JStr "api");
                          ("hosts", JList [JStr "api.example.com"]);
                          ("socket", JStr "/tmp/caddy-dev/api.sock");
                          ("socket_exists", JBool false);
                          ("healthy", JBool false);
                          ("requests", JInt 0); ("fails", JInt 0)]]);
           ("tls_domains", JList []);
           ("dns", JDict [("domains", JDict []); ("ipv4", JBool false);
                          ("ipv6", JBool false)])] in
  service_ids out = map route_id_of [api_route] /\
  (NoDup (service_ids out) <-> NoDup (map route_id_of [api_route])).
Proof.
  apply (service_ids_distinct_iff bare_env
           {| f_routes := JList [api_route]; f_upstreams := JNull; f_tls := JNull;
              f_dyn_dns := JNull; f_metrics := None |});
    reflexivity.
Defined.

(** Two routes without an identifier are both listed as ["unknown"]. *)
Lemma service_ids_not_distinct :
  exists out,
    get_status bare_env
      {| f_routes := JList [JDict [("match", JList [])]; JDict [("match", JList [])]];
         f_upstreams := JNull; f_tls := JNull; f_dyn_dns := JNull;
         f_metrics := None |} = Ok out /\
    service_ids out = [JStr "unknown"; JStr "unknown"] /\
    ~ NoDup (service_ids out).
Proof.
  eexists. split; [reflexivity|]. split; [reflexivity|].
  intros H. apply NoDup_cons in H as [H _]. apply H. left.
Qed.

(** ** C7: the selected backend *)

Lemma default_last_cons {A : Type} (a : A) (l : list A) (x y : A) :
  default x (last (a :: l)) = default y (last (a :: l)).
Proof. revert a. induction l as [|b l IH]; intros a; [reflexivity | apply IH]. Qed.

Lemma scan_upstreams_last (us : list json) (sock : json) :
  forallb dial_entry_ok us = true ->
  for_each scan_upstream us sock = Ok (default sock (last (map dial_or_empty us))).
Proof.
  revert sock. induction us as [|u us IH]; intros sock Hus; [reflexivity|].
  simpl in Hus. apply andb_prop in Hus as [Hu Hus].
  destruct u; try discriminate. simpl.
  rewrite (IH _ Hus). f_equal.
  destruct us as [|u' us]; [reflexivity|].
  apply (default_last_cons (dial_or_empty u') (map dial_or_empty us)).
Qed.

Lemma scan_handler_last (h sock : json) :
  handler_ok h = true ->
  scan_handler sock h = Ok (default sock (last (map dial_or_empty (entries_of h)))).
Proof.
  destruct h; try discriminate. unfold handler_ok, scan_handler, entries_of. simpl.
  unfold opt_field. destruct (dict_lookup d "upstreams") as [ups|]; simpl; [|done].
  intros Hups. destruct ups; try discriminate. simpl.
  by apply scan_upstreams_last.
Qed.

Lemma last_app_default {A : Type} (l1 l2 : list A) (x : A) :
  default x (last (l1 ++ l2)) = default (default x (last l1)) (last l2).
Proof.
  destruct l2 as [|y l2 _] using rev_ind.
  - by rewrite app_nil_r.
  - by rewrite app_assoc, !last_snoc.
Qed.

Lemma scan_handlers_last (hs : list json) (sock : json) :
  forallb handler_ok hs = true ->
  for_each scan_handler hs sock =
  Ok (default sock (last (map dial_or_empty (concat (map entries_of hs))))).
Proof.
  revert sock. induction hs as [|h hs IH]; intros sock Hhs; [reflexivity|].
  simpl in Hhs. apply andb_prop in Hhs as [Hh Hhs]. simpl.
  rewrite (scan_handler_last _ _ Hh). simpl. rewrite (IH _ Hhs).
  by rewrite map_app, last_app_default.
Qed.

(** The scan keeps what it read from the last entry, the empty string for
    an entry without a dial target. *)
Lemma select_backend_last_entry (route : json) :
  handlers_ok route = true ->
  select_backend route =
  Ok (default (JStr "") (last (map dial_or_empty (upstream_entries route)))).
Proof.
  destruct route; try discriminate.
  unfold handlers_ok, select_backend, upstream_entries, handlers_of, opt_field. simpl.
  destruct (dict_lookup d "handle") as [hs|]; simpl; [|done].
  intros Hhs. destruct hs; try discriminate. simpl.
  by apply scan_handlers_last.
Qed.

Lemma dials_of_declaring (us : list json) :
  forallb declares_dial us = true ->
  map dial_or_empty us = omap (fun u => field u "dial") us.
Proof.
  induction us as [|u us IH]; [reflexivity|]. simpl.
  intros Hus. apply andb_prop in Hus as [Hu Hus].
  destruct u; try discriminate. unfold declares_dial, has_field in Hu. simpl in Hu.
  unfold dial_or_empty at 1. simpl.
  destruct (dict_lookup d "dial"); [|discriminate]. simpl. by rewrite IH.
Qed.

(** C7 (as amended). For a route of the documented shape ([handle], when
    present, a list of handler objects; [upstreams] of a handler, when
    present, a list of objects; [dial] of an entry, when present, a
    string), the selected backend is what the last upstream entry scanned
    declares, going through the handlers and their lists in order: the dial
    target of that entry, or the empty string when that entry has no [dial]
    or there is no entry. When the entries each declare a dial target it is
    the last target declared; so with two handlers that declare one target
    each, and no entry without one, it is the target of the second. *)
Theorem select_backend_last_dial (route : json) :
  handlers_ok route = true ->
  select_backend route =
    Ok (default (JStr "") (last (map dial_or_empty (upstream_entries route)))) /\
  (forallb declares_dial (upstream_entries route) = true ->
   select_backend route = Ok (default (JStr "") (last (declared_dials route)))).
Proof.
  intros Hok. split; [exact (select_backend_last_entry route Hok)|].
  intros Hdial. rewrite (select_backend_last_entry route Hok).
  unfold declared_dials. by rewrite (dials_of_declaring _ Hdial).
Qed.

Lemma select_backend_last_dial_witness :
  let route :=
    JDict [("handle",
            JList [JDict [("upstreams", JList [JDict [("dial", JStr "unix//tmp/a.sock")]])];
                   JDict [("upstreams", JList [JDict [("dial", JStr "unix//tmp/b.sock")]])]])] in
  select_backend route = Ok (JStr "unix//tmp/b.sock") /\
  (forallb declares_dial (upstream_entries route) = true ->
   select_backend route = Ok (JStr "unix//tmp/b.sock")).
Proof.
  apply (select_backend_last_dial
    (JDict [("handle",
             JList [JDict [("upstreams", JList [JDict [("dial", JStr "unix//tmp/a.sock")]])];
                    JDict [("upstreams", JList [JDict [("dial", JStr "unix//tmp/b.sock")]])]])])).
  reflexivity.
Defined.

(** An entry without [dial] that is scanned after the declared targets
    resets the selection to the empty string: the last dial target
    encountered, [b.sock] of the second handler, is not selected. *)
Lemma select_backend_reset_without_dial :
  route_ok reset_route = true /\
  declared_dials reset_route = [JStr "unix//tmp/a.sock"; JStr "unix//tmp/b.sock"] /\
  select_backend reset_route = Ok (JStr "") /\
  select_backend reset_route <> Ok (JStr "unix//tmp/b.sock").
Proof. repeat split. discriminate. Qed.


(** Two handlers with one dial target each: the second is selected. *)
Example select_backend_second_handler (d1 d2 : json) :
  select_backend
    (JDict [("handle",
             JList [JDict [("upstreams", JList [JDict [("dial", d1)]])];
                    JDict [("upstreams", JList [JDict [("dial", d2)]])]])])
  = Ok d2.
Proof. reflexivity. Qed.

(** ** C9: the TLS domains *)

Lemma extend_subjects_ok (p : json) (acc : list json) :
  policy_ok p = true ->
  extend_subjects acc p = Ok (acc ++ subjects_of p).
Proof.
  destruct p; try discriminate.
  unfold policy_ok, opt_field, extend_subjects, subjects_of. simpl.
  destruct (dict_lookup d "subjects") as [subjects|]; simpl.
  - by destruct subjects.
  - by rewrite app_nil_r.
Qed.

Lemma extend_subjects_flatten (ps : list json) (acc : list json) :
  forallb policy_ok ps = true ->
  for_each extend_subjects ps acc = Ok (acc ++ concat (map subjects_of ps)).
Proof.
  revert acc. induction ps as [|p ps IH]; intros acc Hps; simpl.
  - by rewrite app_nil_r.
  - simpl in Hps. apply andb_prop in Hps as [Hp Hps].
    rewrite (extend_subjects_ok p acc Hp). simpl.
    rewrite (IH _ Hps). by rewrite <- app_assoc.
Qed.

Lemma tls_automate_ok (d : list (string * json)) :
  tls_ok (JDict d) = true ->
  (certificates ← dict_get (JDict d) "certificates" (JDict []);
   dict_get certificates "automate" (JList []))
  = Ok (JList (automate_of (JDict d))).
Proof.
  unfold tls_ok, automate_of, opt_field. simpl. intros H.
  apply andb_prop in H as [Hc _].
  destruct (dict_lookup d "certificates") as [c|]; simpl; [|reflexivity].
  destruct c as [| | | | | |c]; try discriminate. simpl in *.
  destruct (dict_lookup c "automate") as [a|]; simpl; [|reflexivity].
  by destruct a.
Qed.

Lemma tls_policies_ok (d : list (string * json)) :
  tls_ok (JDict d) = true ->
  (automation ← dict_get (JDict d) "automation" (JDict []);
   dict_get automation "policies" (JList []))
  = Ok (JList (policies_of (JDict d))) /\
  forallb policy_ok (policies_of (JDict d)) = true.
Proof.
  unfold tls_ok, policies_of, opt_field. simpl. intros H.
  apply andb_prop in H as [_ Ha].
  destruct (dict_lookup d "automation") as [a|]; simpl; [|done].
  destruct a as [| | | | | |a]; try discriminate. simpl in *.
  destruct (dict_lookup a "policies") as [ps|]; simpl; [|done].
  by destruct ps.
Qed.

Lemma tls_domains_of_ok (tls_config : json) :
  tls_ok tls_config = true ->
  tls_domains_of tls_config =
  Ok (JList match automate_of tls_config with
            | [] => concat (map subjects_of (policies_of tls_config))
            | subject :: more => subject :: more
            end).
Proof.
  destruct tls_config as [| | | | | |d]; try discriminate. intros Hok.
  pose proof (tls_automate_ok d Hok) as Ha.
  destruct (tls_policies_ok d Hok) as [Hp Hps].
  unfold tls_domains_of. simpl in Ha, Hp |- *.
  rewrite Ha. simpl. rewrite Hp. simpl.
  destruct (automate_of (JDict d)) as [|subject more]; simpl; [|reflexivity].
  by rewrite (extend_subjects_flatten _ [] Hps).
Qed.

(** C9. The TLS domains are the list of subjects given for automation when
    that list is present and not empty; otherwise they are the subjects of
    the automation policies, one policy after the other, a policy without
    subjects adding nothing. This is the [tls_domains] field of the
    output. *)
Theorem tls_domains_automate_else_policies (E : env) (f : fetched) :
  tls_ok (tls_config_of f) = true ->
  let domains :=
    match automate_of (tls_config_of f) with
    | [] => concat (map subjects_of (policies_of (tls_config_of f)))
    | subject :: more => subject :: more
    end in
  tls_domains_of (tls_config_of f) = Ok (JList domains) /\
  forall out, get_status E f = Ok out ->
    field out "tls_domains" = Some (JList domains).
Proof.
  intros Hok domains. pose proof (tls_domains_of_ok _ Hok) as Htls.
  split; [exact Htls|].
  intros out Hout.
  apply get_status_inv in Hout
    as (hm & us & um & rs & recs & tls & dns
        & _ & _ & _ & _ & _ & Htls' & _ & ->).
  rewrite Htls in Htls'. by injection Htls' as <-.
Qed.

Lemma tls_domains_automate_else_policies_witness :
  tls_domains_of policies_tls =
    Ok (JList [JStr "*.a.example.dev"; JStr "b.example.dev"; JStr "c.example.dev"]) /\
  forall out,
    get_status bare_env
      {| f_routes := JNull; f_upstreams := JNull; f_tls := policies_tls;
         f_dyn_dns := JNull; f_metrics := None |} = Ok out ->
    field out "tls_domains" =
      Some (JList [JStr "*.a.example.dev"; JStr "b.example.dev"; JStr "c.example.dev"]).
Proof.
  apply (tls_domains_automate_else_policies bare_env
           {| f_routes := JNull; f_upstreams := JNull; f_tls := policies_tls;
              f_dyn_dns := JNull; f_metrics := None |}).
  reflexivity.
Defined.

(** ** C10: a route without a dial target *)

Lemma no_dials_all_empty (us : list json) :
  omap (fun u => field u "dial") us = [] ->
  default (JStr "") (last (map dial_or_empty us)) = JStr "".
Proof.
  induction us as [|u us IH]; [reflexivity|]. simpl.
  unfold dial_or_empty at 1.
  destruct (field u "dial") eqn:Hu; [discriminate|]. simpl. intros Hus.
  destruct us as [|u' us]; [reflexivity|]. exact (IH Hus).
Qed.

Lemma select_backend_no_dial (route : json) :
  handlers_ok route = true ->
  declared_dials route = [] ->
  select_backend route = Ok (JStr "").
Proof.
  intros Hok Hnone. rewrite (select_backend_last_entry route Hok).
  f_equal. by apply no_dials_all_empty.
Qed.

(** C10. In one pass, the record of a route that declares no dial target
    has the empty string as [socket] and [false] as [socket_exists], and
    its [healthy] is [false] when the health map has no entry under the
    empty string. *)
Theorem no_dial_record (E : env) (f : fetched) (out : json)
    (hm : gmap string bool) (rs : list json) :
  get_status E f = Ok out ->
  parse_health E (metrics_text_of f) = Ok hm ->
  py_iter (routes_of f) = Ok rs ->
  exists recs,
    field out "services" = Some (JList recs) /\
    Forall2 (fun route r =>
      handlers_ok route = true ->
      declared_dials route = [] ->
      field r "socket" = Some (JStr "") /\
      field r "socket_exists" = Some (JBool false) /\
      (hm !! "" = None -> field r "healthy" = Some (JBool false)))
      rs recs.
Proof.
  intros Hout Hhm Hrs.
  apply get_status_inv in Hout
    as (hm' & us & um & rs' & recs & tls & dns
        & Hhm' & _ & _ & Hrs' & Hrecs & _ & _ & ->).
  rewrite Hhm in Hhm'. injection Hhm' as <-.
  rewrite Hrs in Hrs'. injection Hrs' as <-.
  exists recs. split; [reflexivity|].
  eapply Forall2_impl; [exact Hrecs|].
  intros route r Hr Hok Hnone. simpl in Hr.
  apply service_record_inv in Hr
    as (rid & hosts & sock & sf & rq & fl & _ & Hsock & Hsf & ->).
  rewrite (select_backend_no_dial route Hok Hnone) in Hsock.
  injection Hsock as <-. injection Hsf as <-. simpl.
  repeat split. by intros ->.
Qed.

Lemma no_dial_record_witness :
  exists recs,
    field (JDict [("services",
                   JList [JDict [("id", JStr "static");
                                 ("hosts", JList [JStr "files.example.com"]);
                                 ("socket", JStr "");
                                 ("socket_exists", JBool false);
                                 ("healthy", JBool false);
                                 ("requests", JInt 0); ("fails", JInt 0)]]);
                  ("tls_domains", JList []);
                  ("dns", JDict [("domains", JDict []); ("ipv4", JBool false);
                                 ("ipv6", JBool false)])])
          "services" = Some (JList recs) /\
    Forall2 (fun route r =>
      handlers_ok route = true ->
      declared_dials route = [] ->
      field r "socket" = Some (JStr "") /\
      field r "socket_exists" = Some (JBool false) /\
      ((∅ : gmap string bool) !! "" = None -> field r "healthy" = Some (JBool false)))
      [JDict [("@id", JStr "static");
              ("match", JList [JDict [("host", JList [JStr "files.example.com"])]]);
              ("handle", JList [JDict [("handler", JStr "file_server")]])]]
      recs.
Proof.
  apply (no_dial_record bare_env
           {| f_routes :=
                JList [JDict [("@id", JStr "static");
                              ("match", JList [JDict [("host", JList [JStr "files.example.com"])]]);
                              ("handle", JList [JDict [("handler", JStr "file_server")]])]];
              f_upstreams := JNull; f_tls := JNull; f_dyn_dns := JNull;
              f_metrics := None |});
    reflexivity.
Defined.

(** ** The metrics parser never raises *)

Lemma index_exn {A : Type} (l : list A) (i : nat) (e : exn) :
  PyStr.index l i = Raise e -> e = IndexError.
Proof. unfold PyStr.index. destruct (l !! i); congruence. Qed.

Lemma index_last_exn {A : Type} (l : list A) (e : exn) :
  PyStr.index_last l = Raise e -> e = IndexError.
Proof. unfold PyStr.index_last. destruct (last l); congruence. Qed.

Lemma float_of_str_exn (E : env) (s : string) (e : exn) :
  float_of_str E s = Raise e -> e = ValueError.
Proof. unfold float_of_str. destruct (py_float E s); congruence. Qed.

(** Inside the [try], nothing but the two exceptions that are caught. *)
Lemma parse_gauge_exn (E : env) (line : string) (e : exn) :
  parse_gauge E line = Raise e -> e = IndexError \/ e = ValueError.
Proof.
  unfold parse_gauge. simpl.
  destruct (PyStr.index (PyStr.split_go upstream_label line 0) 1) as [after|e1] eqn:H1;
    simpl; [|intros [= <-]; left; by eapply index_exn].
  destruct (PyStr.index (PyStr.split_go quote_str after 0) 0) as [addr|e2] eqn:H2;
    simpl; [|intros [= <-]; left; by eapply index_exn].
  destruct (PyStr.index_last (PyStr.split_ws line)) as [tok|e3] eqn:H3;
    simpl; [|intros [= <-]; left; by eapply index_last_exn].
  destruct (float_of_str E tok) as [val|e4] eqn:H4;
    simpl; [discriminate|intros [= <-]; right; by eapply float_of_str_exn].
Qed.

Lemma health_line_total (E : env) (hm : gmap string bool) (line : string) :
  succeeds (health_line E hm line).
Proof.
  unfold health_line, succeeds.
  destruct (PyStr.startswith line gauge_prefix); [|eauto].
  destruct (parse_gauge E line) as [[addr b]|e] eqn:Hp; [eauto|].
  apply parse_gauge_exn in Hp as [-> | ->]; eauto.
Qed.

Lemma for_each_total {A S : Type} (body : S -> A -> result S) (xs : list A) (st : S) :
  (forall st x, succeeds (body st x)) -> succeeds (for_each body xs st).
Proof.
  intros Hbody. revert st. induction xs as [|x xs IH]; intros st; simpl.
  - by exists st.
  - destruct (Hbody st x) as [st' ->]. simpl. apply IH.
Qed.

(** Whatever the text, the parser returns a map. *)
Lemma parse_health_total (E : env) (metrics_text : string) :
  succeeds (parse_health E metrics_text).
Proof. apply for_each_total. apply health_line_total. Qed.

(** ** Which fetched values [get_status] returns on *)

Lemma dns_of_total (dyn_dns : json) :
  dyn_dns_ok dyn_dns = true -> succeeds (dns_of dyn_dns).
Proof.
  destruct dyn_dns as [| | | | | |d]; try discriminate.
  unfold dyn_dns_ok, dns_of, opt_field, succeeds. simpl.
  destruct (dict_lookup d "versions") as [v|]; simpl; [|eauto].
  destruct v; try discriminate. simpl. eauto.
Qed.

Lemma index_upstream_ok (um : gmap string json) (u : json) :
  upstream_ok u = true -> has_address u = true ->
  exists s, index_upstream um u = Ok (<[s := u]> um).
Proof.
  destruct u as [| | | | | |d]; try discriminate.
  unfold upstream_ok, has_address, opt_field, has_field, index_upstream. simpl.
  destruct (dict_lookup d "address") as [a|]; [|discriminate].
  destruct a; try discriminate. simpl. eauto.
Qed.

(** With an address in every record the index is built, and it binds
    records only. *)
Lemma index_upstreams_total (us : list json) (um : gmap string json) :
  forallb upstream_ok us = true ->
  forallb has_address us = true ->
  map_Forall (fun _ v => is_dict v = true) um ->
  exists um', for_each index_upstream us um = Ok um' /\
              map_Forall (fun _ v => is_dict v = true) um'.
Proof.
  revert um. induction us as [|u us IH]; intros um Hok Haddr Hum; simpl; [eauto|].
  simpl in Hok, Haddr.
  apply andb_prop in Hok as [Hu Hok]. apply andb_prop in Haddr as [Ha Haddr].
  destruct (index_upstream_ok um u Hu Ha) as [s ->]. simpl.
  apply IH; [done..|].
  apply map_Forall_insert_2; [|done]. by destruct u.
Qed.

Lemma for_each_total_where {A S : Type} (P : A -> bool) (body : S -> A -> result S)
    (xs : list A) (st : S) :
  (forall st x, P x = true -> succeeds (body st x)) ->
  forallb P xs = true ->
  succeeds (for_each body xs st).
Proof.
  intros Hbody. revert st. induction xs as [|x xs IH]; intros st Hxs; simpl.
  - by exists st.
  - simpl in Hxs. apply andb_prop in Hxs as [Hx Hxs].
    destruct (Hbody st x Hx) as [st' ->]. simpl. by apply IH.
Qed.

Lemma extend_hosts_ok (hosts : list json) (m : json) :
  matcher_ok m = true -> succeeds (extend_hosts hosts m).
Proof.
  destruct m as [| | | | | |d]; try discriminate.
  unfold matcher_ok, opt_field, extend_hosts. simpl.
  destruct (dict_lookup d "host") as [h|]; simpl; [|by eexists].
  destruct h; try discriminate. simpl. by eexists.
Qed.

Lemma extend_hosts_total (ms : list json) (hosts : list json) :
  forallb matcher_ok ms = true -> succeeds (for_each extend_hosts ms hosts).
Proof. apply for_each_total_where. intros st x. apply extend_hosts_ok. Qed.

Lemma dial_or_empty_str (u : json) :
  dial_entry_ok u = true -> is_str (dial_or_empty u) = true.
Proof.
  destruct u as [| | | | | |d]; try discriminate.
  unfold dial_entry_ok, dial_or_empty, opt_field. simpl.
  by destruct (dict_lookup d "dial").
Qed.

Lemma entries_dial_ok (hs : list json) :
  forallb handler_ok hs = true ->
  forallb dial_entry_ok (concat (map entries_of hs)) = true.
Proof.
  induction hs as [|h hs IH]; [reflexivity|]. simpl.
  intros Hhs. apply andb_prop in Hhs as [Hh Hhs].
  rewrite forallb_app, (IH Hhs), andb_true_r.
  destruct h as [| | | | | |d]; try discriminate.
  unfold handler_ok, entries_of, opt_field in *. simpl in *.
  destruct (dict_lookup d "upstreams") as [ups|]; [|reflexivity].
  by destruct ups.
Qed.

Lemma last_str (l : list json) :
  forallb is_str l = true -> is_str (default (JStr "") (last l)) = true.
Proof.
  induction l as [|x l IH]; [reflexivity|]. simpl.
  intros H. apply andb_prop in H as [Hx Hl].
  destruct l as [|y l]; [exact Hx | exact (IH Hl)].
Qed.

(** The backend selected for a route of the documented shape is a string. *)
Lemma select_backend_str (route : json) :
  handlers_ok route = true ->
  exists sock, select_backend route = Ok (JStr sock).
Proof.
  intros Hok. rewrite (select_backend_last_entry route Hok).
  assert (Hstr : is_str (default (JStr "")
                           (last (map dial_or_empty (upstream_entries route)))) = true).
  { apply last_str. rewrite forallb_forall. intros x Hx.
    apply in_map_iff in Hx as (u & <- & Hu). apply dial_or_empty_str.
    revert u Hu. rewrite <- forallb_forall.
    destruct route as [| | | | | |d]; try discriminate.
    unfold handlers_ok, upstream_entries, handlers_of, opt_field in *. simpl in *.
    destruct (dict_lookup d "handle") as [hs|]; [|reflexivity].
    destruct hs; try discriminate. by apply entries_dial_ok. }
  destruct (default _ _); try discriminate. eauto.
Qed.

Lemma route_handlers_ok (route : json) :
  route_ok route = true -> handlers_ok route = true.
Proof.
  destruct route; try discriminate. unfold route_ok, handlers_ok. simpl.
  intros H. by apply andb_prop in H as [_ H].
Qed.

Lemma service_record_total (E : env) (hm : gmap string bool) (um : gmap string json)
    (route : json) :
  route_ok route = true ->
  map_Forall (fun _ v => is_dict v = true) um ->
  succeeds (service_record E hm um route).
Proof.
  intros Hok Hum.
  destruct (select_backend_str route (route_handlers_ok route Hok)) as [sock Hsock].
  destruct route as [| | | | | |d]; try discriminate.
  unfold route_ok, opt_field in Hok. simpl in Hok. apply andb_prop in Hok as [Hm _].
  unfold service_record. rewrite Hsock. simpl.
  assert (Hhosts : succeeds (ms ← py_iter (default (JList []) (dict_lookup d "match"));
                             for_each extend_hosts ms [])).
  { destruct (dict_lookup d "match") as [m|]; simpl; [|by eexists].
    destruct m; try discriminate. simpl. by apply extend_hosts_total. }
  destruct Hhosts as [hosts Hhosts].
  apply bind_ok_inv in Hhosts as (ms & Hms & Hhosts).
  rewrite Hms. simpl. rewrite Hhosts. simpl.
  destruct (um !! sock) as [info|] eqn:Hinfo; simpl.
  - apply Hum in Hinfo. destruct info; try discriminate. simpl. by eexists.
  - by eexists.
Qed.

Lemma services_total (E : env) (hm : gmap string bool) (um : gmap string json)
    (rs acc : list json) :
  forallb route_ok rs = true ->
  map_Forall (fun _ v => is_dict v = true) um ->
  succeeds (for_each (append_service E hm um) rs acc).
Proof.
  intros Hrs Hum. revert Hrs. apply for_each_total_where.
  intros st route Hr. unfold append_service.
  destruct (service_record_total E hm um route Hr Hum) as [r ->]. by eexists.
Qed.

(** C2 (as amended). [get_status] returns, without raising, whenever the
    fetched values have their documented shapes, with any field of any
    entry missing except the [address] of an upstream record: that one
    each upstream record has. *)
Theorem get_status_total (E : env) (f : fetched) :
  fetched_ok f = true ->
  list_where has_address (upstreams_of f) = true ->
  succeeds (get_status E f).
Proof.
  unfold fetched_ok. intros Hok Haddr.
  apply andb_prop in Hok as [Hok Hdns]. apply andb_prop in Hok as [Hok Htls].
  apply andb_prop in Hok as [Hrs Hus].
  unfold get_status.
  destruct (parse_health_total E (metrics_text_of f)) as [hm ->]. simpl.
  destruct (upstreams_of f) as [| | | | |us|]; try discriminate. simpl.
  destruct (index_upstreams_total us ∅ Hus Haddr) as (um & -> & Hum);
    [apply map_Forall_empty|]. simpl.
  destruct (routes_of f) as [| | | | |rs|]; try discriminate. simpl.
  destruct (services_total E hm um rs [] Hrs Hum) as [services ->]. simpl.
  rewrite (tls_domains_of_ok _ Htls). simpl.
  destruct (dns_of_total _ Hdns) as [dns ->]. simpl.
  by eexists.
Qed.

Lemma get_status_total_witness :
  succeeds (get_status bare_env
    {| f_routes := JList [JDict []; JDict [("handle", JList [JDict []])]];
       f_upstreams := JList [JDict [("address", JStr api_dial)]];
       f_tls := JDict [("automation", JDict [("policies", JList [JDict []])])];
       f_dyn_dns := JDict [("domains", JDict [])];
       f_metrics := Some "caddy_reverse_proxy_upstreams_healthy{ 1" |}).
Proof.
  apply (get_status_total bare_env
    {| f_routes := JList [JDict []; JDict [("handle", JList [JDict []])]];
       f_upstreams := JList [JDict [("address", JStr api_dial)]];
       f_tls := JDict [("automation", JDict [("policies", JList [JDict []])])];
       f_dyn_dns := JDict [("domains", JDict [])];
       f_metrics := Some "caddy_reverse_proxy_upstreams_healthy{ 1" |});
    reflexivity.
Defined.


(** ** C5: the end-to-end scenario *)

(** The record of a route, from what its steps return. *)
Lemma service_record_steps (E : env) (hm : gmap string bool) (um : gmap string json)
    (route route_id : json) (hosts : list json) (sock sock_file : string)
    (requests fails : json) :
  dict_get route "@id" (JStr "unknown") = Ok route_id ->
  (matches ← dict_get route "match" (JList []);
   ms ← py_iter matches;
   for_each extend_hosts ms []) = Ok hosts ->
  select_backend route = Ok (JStr sock) ->
  sock_file_of (JStr sock) = Ok sock_file ->
  dict_get (default (JDict []) (um !! sock)) "num_requests" (JInt 0) = Ok requests ->
  dict_get (default (JDict []) (um !! sock)) "fails" (JInt 0) = Ok fails ->
  service_record E hm um route =
  Ok (JDict [("id", route_id); ("hosts", JList hosts);
             ("socket", JStr sock_file);
             ("socket_exists", JBool (os_path_exists E sock_file));
             ("healthy", JBool (match hm !! sock with
                                | Some b => b
                                | None => os_path_exists E sock_file
                                end));
             ("requests", requests); ("fails", fails)]).
Proof.
  intros Hid Hhosts Hsock Hfile Hreq Hfails. unfold service_record.
  rewrite Hid. cbn [mbind result_bind].
  apply bind_ok_inv in Hhosts as (matches & Hmatches & Hhosts).
  rewrite Hmatches. cbn [mbind result_bind].
  apply bind_ok_inv in Hhosts as (ms & Hms & Hhosts).
  rewrite Hms. cbn [mbind result_bind]. rewrite Hhosts. cbn [mbind result_bind].
  rewrite Hsock. cbn [mbind result_bind]. rewrite Hfile. cbn [mbind result_bind].
  rewrite Hreq. cbn [mbind result_bind]. rewrite Hfails. reflexivity.
Qed.

Lemma api_service_record (E : env) (hm : gmap string bool) :
  hm !! api_dial = None ->
  path_exists E "/tmp/caddy-dev/api.sock" = false ->
  service_record E hm ∅ api_route = Ok api_record.
Proof.
  intros Hhm Hfs.
  rewrite (service_record_steps E hm ∅ api_route (JStr "api") [JStr "api.example.com"]
             api_dial "/tmp/caddy-dev/api.sock" (JInt 0) (JInt 0));
    try reflexivity.
  rewrite Hhm. unfold os_path_exists. rewrite Hfs. reflexivity.
Qed.

(** C5. With the single route [api_route], no upstream statistics, no
    health entry for its dial string in the metrics and no socket file,
    [get_status] lists exactly the record [api_record]: socket path
    [/tmp/caddy-dev/api.sock], not existing, not healthy, zero requests and
    zero fails. *)
Theorem api_scenario_record (E : env) (f : fetched) :
  f_routes f = JList [api_route] ->
  upstreams_of f = JList [] ->
  tls_ok (tls_config_of f) = true ->
  dyn_dns_ok (dyn_dns_of f) = true ->
  (forall hm, parse_health E (metrics_text_of f) = Ok hm -> hm !! api_dial = None) ->
  path_exists E "/tmp/caddy-dev/api.sock" = false ->
  exists out,
    get_status E f = Ok out /\
    field out "services" = Some (JList [api_record]).
Proof.
  intros Hroutes Hups Htls Hdns Hhm Hfs. unfold get_status.
  destruct (parse_health_total E (metrics_text_of f)) as [hm Hparse].
  rewrite Hparse, Hups. simpl.
  unfold routes_of. rewrite Hroutes. simpl.
  unfold append_service.
  rewrite (api_service_record E hm (Hhm hm Hparse) Hfs). simpl.
  rewrite (tls_domains_of_ok _ Htls). simpl.
  destruct (dns_of_total _ Hdns) as [dns ->]. simpl.
  eexists. split; reflexivity.
Qed.

Lemma web_gauge_parsed :
  parse_health bare_env (gauge_line "unix//tmp/caddy-dev/web.sock" "1" +:+ newline)
  = Ok {[ "unix//tmp/caddy-dev/web.sock" := true ]}.
Proof. vm_cast_no_check (eq_refl (Ok ({[ "unix//tmp/caddy-dev/web.sock" := true ]} : gmap string bool))). Qed.

Lemma api_scenario_record_witness :
  exists out,
    get_status bare_env
      {| f_routes := JList [api_route]; f_upstreams := JList []; f_tls := policies_tls;
         f_dyn_dns := JNull;
         f_metrics := Some (gauge_line "unix//tmp/caddy-dev/web.sock" "1" +:+ newline) |}
    = Ok out /\
    field out "services" = Some (JList [api_record]).
Proof.
  apply (api_scenario_record bare_env
           {| f_routes := JList [api_route]; f_upstreams := JList []; f_tls := policies_tls;
              f_dyn_dns := JNull;
              f_metrics := Some (gauge_line "unix//tmp/caddy-dev/web.sock" "1" +:+ newline) |});
    try reflexivity.
  intros hm Hhm.
  change (parse_health bare_env (gauge_line "unix//tmp/caddy-dev/web.sock" "1" +:+ newline)
          = Ok hm) in Hhm.
  rewrite web_gauge_parsed in Hhm. injection Hhm as <-. reflexivity.
Defined.

(** ** C6: the metrics parser on well-formed texts *)

(** *** Strings *)



















(** *** One gauge line *)















(** ** More on the records of [get_status] *)

Lemma service_record_inv_steps (E : env) (hm : gmap string bool) (um : gmap string json)
    (route r : json) :
  service_record E hm um route = Ok r ->
  exists route_id matches ms hosts sock sock_file requests fails,
    dict_get route "@id" (JStr "unknown") = Ok route_id /\
    dict_get route "match" (JList []) = Ok matches /\
    py_iter matches = Ok ms /\
    for_each extend_hosts ms [] = Ok hosts /\
    select_backend route = Ok (JStr sock) /\
    sock_file_of (JStr sock) = Ok sock_file /\
    dict_get (default (JDict []) (um !! sock)) "num_requests" (JInt 0) = Ok requests /\
    dict_get (default (JDict []) (um !! sock)) "fails" (JInt 0) = Ok fails /\
    r = JDict [("id", route_id); ("hosts", JList hosts);
               ("socket", JStr sock_file);
               ("socket_exists", JBool (os_path_exists E sock_file));
               ("healthy", JBool (match hm !! sock with
                                  | Some b => b
                                  | None => os_path_exists E sock_file
                                  end));
               ("requests", requests); ("fails", fails)].
Proof.
  unfold service_record. intros H. ok_inv H.
  match goal with a : json, Hs : select_backend _ = Ok ?a |- _ =>
    destruct a; try discriminate
  end.
  ok_inv H. injection H as <-. eauto 20.
Qed.

(** The index after the loop: the last record with the address, or what
    was there before. *)
Lemma index_upstreams_lookup (us : list json) (um0 um : gmap string json) (a : string) :
  for_each index_upstream us um0 = Ok um ->
  um !! a = match last_with_address a us with
            | Some u => Some u
            | None => um0 !! a
            end.
Proof.
  revert um0. induction us as [|u us IH]; intros um0 H.
  - injection H as <-. reflexivity.
  - cbn [for_each] in H. apply bind_ok_inv in H as (um1 & Hu & H).
    rewrite (IH _ H). cbn [last_with_address].
    destruct (last_with_address a us); [reflexivity|].
    unfold index_upstream in Hu. apply bind_ok_inv in Hu as (addr & Haddr & Hu).
    destruct u as [| | | | | |d]; try discriminate. unfold address_is. simpl in *.
    destruct (dict_lookup d "address") as [x|]; [|discriminate].
    injection Haddr as ->.
    destruct addr as [| | | |s| |]; try discriminate; injection Hu as <-; try reflexivity.
    destruct (String.eqb_spec s a) as [->|Hne].
    + by rewrite lookup_insert_eq.
    + by rewrite lookup_insert_ne.
Qed.

Lemma last_with_address_dict (a : string) (us : list json) (u : json) :
  last_with_address a us = Some u -> exists d, u = JDict d.
Proof.
  induction us as [|u' us IH]; [discriminate|]. cbn [last_with_address].
  destruct (last_with_address a us); [by intros [= ->]; apply IH|].
  unfold address_is, field. destruct u'; try discriminate.
  destruct (dict_lookup d "address") as [[| | | |s| |]|]; try discriminate.
  destruct (String.eqb s a); [|discriminate]. intros [= <-]. eauto.
Qed.

Lemma counter_read (info : option json) (k : string) (v : json) :
  (forall u, info = Some u -> exists d, u = JDict d) ->
  dict_get (default (JDict []) info) k (JInt 0) = Ok v ->
  v = counter_of info k.
Proof.
  intros Hd. unfold counter_of. destruct info as [u|]; simpl.
  - destruct (Hd u eq_refl) as [d ->]. simpl. by intros [= <-].
  - by intros [= <-].
Qed.

(** X3. In one pass the [requests] and [fails] of a record are the
    [num_requests] and [fails] of the last upstream record whose address is
    the dial string of the route, and zero when there is no such record or
    the record has no such counter. *)
Theorem upstream_counters_last_record (E : env) (f : fetched) (out : json)
    (us rs : list json) :
  get_status E f = Ok out ->
  py_iter (upstreams_of f) = Ok us ->
  py_iter (routes_of f) = Ok rs ->
  exists recs,
    field out "services" = Some (JList recs) /\
    Forall2 (fun route r =>
      exists sock,
        select_backend route = Ok (JStr sock) /\
        field r "requests" =
          Some (counter_of (last_with_address sock us) "num_requests") /\
        field r "fails" = Some (counter_of (last_with_address sock us) "fails"))
      rs recs.
Proof.
  intros Hout Hus Hrs.
  apply get_status_inv in Hout
    as (hm & us' & um & rs' & recs & tls & dns
        & _ & Hus' & Hum & Hrs' & Hrecs & _ & _ & ->).
  rewrite Hus in Hus'. injection Hus' as <-.
  rewrite Hrs in Hrs'. injection Hrs' as <-.
  exists recs. split; [reflexivity|].
  eapply Forall2_impl; [exact Hrecs|].
  intros route r Hr. cbn beta in Hr.
  apply service_record_inv_steps in Hr
    as (rid & matches & ms & hosts & sock & sf & rq & fl
        & _ & _ & _ & _ & Hsock & _ & Hrq & Hfl & ->).
  exists sock. split; [exact Hsock|].
  assert (Hinfo : um !! sock = last_with_address sock us).
  { rewrite (index_upstreams_lookup us ∅ um sock Hum), lookup_empty.
    by destruct (last_with_address sock us). }
  rewrite Hinfo in Hrq, Hfl.
  apply counter_read in Hrq; [|intros u; apply last_with_address_dict].
  apply counter_read in Hfl; [|intros u; apply last_with_address_dict].
  subst. split; reflexivity.
Qed.

Lemma upstream_counters_last_record_witness :
  exists recs,
    field demo_output "services" = Some (JList recs) /\
    Forall2 (fun route r =>
      exists sock,
        select_backend route = Ok (JStr sock) /\
        field r "requests" =
          Some (counter_of (last_with_address sock demo_upstreams) "num_requests") /\
        field r "fails" =
          Some (counter_of (last_with_address sock demo_upstreams) "fails"))
      demo_routes recs.
Proof.
  apply (upstream_counters_last_record bare_env demo_fetched demo_output
           demo_upstreams demo_routes);
    reflexivity.
Defined.

(** *** Hosts *)

Lemma extend_hosts_concat (ms : list json) (acc : list json) :
  forallb matcher_ok ms = true ->
  for_each extend_hosts ms acc = Ok (acc ++ concat (map hosts_of ms)).
Proof.
  revert acc. induction ms as [|m ms IH]; intros acc Hms.
  - simpl. by rewrite app_nil_r.
  - simpl in Hms. apply andb_prop in Hms as [Hm Hms]. cbn [for_each].
    assert (Hstep : extend_hosts acc m = Ok (acc ++ hosts_of m)).
    { destruct m as [| | | | | |d]; try discriminate.
      unfold matcher_ok, opt_field, extend_hosts, hosts_of in *. simpl in *.
      destruct (dict_lookup d "host") as [h|]; simpl.
      - by destruct h.
      - by rewrite app_nil_r. }
    rewrite Hstep. cbn [mbind result_bind]. rewrite (IH _ Hms).
    simpl. by rewrite <- app_assoc.
Qed.

(** X4. In one pass the [hosts] of the record of a route of the documented
    shape are the host names of its matchers, one matcher after the other,
    a matcher without [host] adding nothing. *)
Theorem hosts_in_matcher_order (E : env) (f : fetched) (out : json) (rs : list json) :
  get_status E f = Ok out ->
  py_iter (routes_of f) = Ok rs ->
  exists recs,
    field out "services" = Some (JList recs) /\
    Forall2 (fun route r =>
      route_ok route = true ->
      field r "hosts" = Some (JList (concat (map hosts_of (matchers_of route)))))
      rs recs.
Proof.
  intros Hout Hrs.
  apply get_status_inv in Hout
    as (hm & us & um & rs' & recs & tls & dns
        & _ & _ & _ & Hrs' & Hrecs & _ & _ & ->).
  rewrite Hrs in Hrs'. injection Hrs' as <-.
  exists recs. split; [reflexivity|].
  eapply Forall2_impl; [exact Hrecs|].
  intros route r Hr Hok. cbn beta in Hr.
  apply service_record_inv_steps in Hr
    as (rid & matches & ms & hosts & sock & sf & rq & fl
        & _ & Hmatches & Hms & Hhosts & _ & _ & _ & _ & ->).
  cbn [field dict_lookup String.eqb Ascii.eqb Bool.eqb]. simpl. do 2 f_equal.
  destruct route as [| | | | | |d]; try discriminate.
  unfold route_ok, opt_field in Hok. simpl in Hok. apply andb_prop in Hok as [Hm _].
  unfold matchers_of. simpl in Hmatches |- *. injection Hmatches as <-.
  destruct (dict_lookup d "match") as [m|]; simpl in *.
  - destruct m; try discriminate. simpl in *. injection Hms as <-.
    rewrite (extend_hosts_concat _ [] Hm) in Hhosts. by injection Hhosts as <-.
  - injection Hms as <-. by injection Hhosts as <-.
Qed.

Lemma hosts_in_matcher_order_witness :
  exists recs,
    field demo_output "services" = Some (JList recs) /\
    Forall2 (fun route r =>
      route_ok route = true ->
      field r "hosts" = Some (JList (concat (map hosts_of (matchers_of route)))))
      demo_routes recs.
Proof.
  apply (hosts_in_matcher_order bare_env demo_fetched demo_output demo_routes);
    reflexivity.
Defined.

(** *** The shape of the value returned *)

(** X5. Whenever [get_status] returns, the value has exactly the fields
    [services], [tls_domains] and [dns], [dns] has exactly [domains],
    [ipv4] and [ipv6], there is one record per route, and every record has
    exactly the seven fields of a service record, with a string as
    [socket] and booleans as [socket_exists] and [healthy]. *)
Theorem get_status_shape (E : env) (f : fetched) (out : json) (rs : list json) :
  get_status E f = Ok out ->
  py_iter (routes_of f) = Ok rs ->
  exists recs tls_domains dns_domains ipv4 ipv6,
    out = JDict [("services", JList recs);
                 ("tls_domains", tls_domains);
                 ("dns", JDict [("domains", dns_domains); ("ipv4", ipv4);
                                ("ipv6", ipv6)])] /\
    length recs = length rs /\
    Forall is_service_record recs.
Proof.
  intros Hout Hrs.
  apply get_status_inv in Hout
    as (hm & us & um & rs' & recs & tls & dns
        & _ & _ & _ & Hrs' & Hrecs & _ & Hdns & ->).
  rewrite Hrs in Hrs'. injection Hrs' as <-.
  unfold dns_of in Hdns. ok_inv Hdns. injection Hdns as <-.
  eexists recs, tls, _, _, _. split; [reflexivity|]. split.
  - symmetry. by eapply Forall2_length.
  - clear -Hrecs. induction Hrecs as [|route r rs recs Hr _ IH]; constructor; [|exact IH].
    apply service_record_inv in Hr
      as (rid & hosts & sock & sf & rq & fl & _ & _ & _ & ->).
    unfold is_service_record. eauto 10.
Qed.

Lemma get_status_shape_witness :
  exists recs tls_domains dns_domains ipv4 ipv6,
    demo_output = JDict [("services", JList recs);
                         ("tls_domains", tls_domains);
                         ("dns", JDict [("domains", dns_domains); ("ipv4", ipv4);
                                        ("ipv6", ipv6)])] /\
    length recs = length demo_routes /\
    Forall is_service_record recs.
Proof.
  apply (get_status_shape bare_env demo_fetched demo_output demo_routes);
    reflexivity.
Defined.

(** *** An upstream record without its address *)

Lemma index_upstreams_key_error (us : list json) (um : gmap string json) :
  forallb upstream_ok us = true ->
  forallb has_address us = false ->
  for_each index_upstream us um = Raise KeyError.
Proof.
  revert um. induction us as [|u us IH]; intros um Hok Hmiss; [discriminate|].
  simpl in Hok, Hmiss. apply andb_prop in Hok as [Hu Hok]. cbn [for_each].
  destruct (has_address u) eqn:Ha.
  - destruct (index_upstream_ok um u Hu Ha) as [s ->]. cbn [mbind result_bind].
    by apply IH.
  - destruct u as [| | | | | |d]; try discriminate.
    unfold has_address, has_field, index_upstream in *. simpl in *.
    by destruct (dict_lookup d "address").
Qed.

(** X6. When the upstream statistics are a list of records of the
    documented shape and one of them has no [address], [get_status] raises
    [KeyError], whatever the routes, the TLS and DNS configurations and the
    metrics are. *)
Theorem missing_address_key_error (E : env) (f : fetched) (us : list json) :
  upstreams_of f = JList us ->
  forallb upstream_ok us = true ->
  forallb has_address us = false ->
  get_status E f = Raise KeyError.
Proof.
  intros Hus Hok Hmiss. unfold get_status.
  destruct (parse_health_total E (metrics_text_of f)) as [hm ->].
  cbn [mbind result_bind]. rewrite Hus. cbn [py_iter mbind result_bind].
  by rewrite (index_upstreams_key_error us ∅ Hok Hmiss).
Qed.

Lemma missing_address_key_error_witness :
  get_status bare_env
    {| f_routes := JList demo_routes;
       f_upstreams := JList [JDict [("address", JStr api_dial)];
                             JDict [("num_requests", JInt 3)]];
       f_tls := policies_tls; f_dyn_dns := JNull; f_metrics := None |}
  = Raise KeyError.
Proof.
  apply (missing_address_key_error bare_env
    {| f_routes := JList demo_routes;
       f_upstreams := JList [JDict [("address", JStr api_dial)];
                             JDict [("num_requests", JInt 3)]];
       f_tls := policies_tls; f_dyn_dns := JNull; f_metrics := None |}
    [JDict [("address", JStr api_dial)]; JDict [("num_requests", JInt 3)]]);
    reflexivity.
Defined.

(** ** More on the metrics parser *)

Lemma for_each_app {A S : Type} (body : S -> A -> result S) (xs ys : list A) (st : S) :
  for_each body (xs ++ ys) st = st' ← for_each body xs st; for_each body ys st'.
Proof.
  revert st. induction xs as [|x xs IH]; intros st; simpl; [reflexivity|].
  destruct (body st x) as [st'|e]; simpl; [apply IH | reflexivity].
Qed.

(** Every binding of the map was read from a gauge line, or was there
    before. *)
Lemma health_lines_sound (E : env) (ls : list string) (hm0 hm : gmap string bool)
    (a : string) (b : bool) :
  for_each (health_line E) ls hm0 = Ok hm ->
  hm !! a = Some b ->
  hm0 !! a = Some b \/
  exists line, line ∈ ls /\ PyStr.startswith line gauge_prefix = true /\
               parse_gauge E line = Ok (a, b).
Proof.
  revert hm0. induction ls as [|l ls IH]; intros hm0 H Hab.
  - injection H as <-. by left.
  - cbn [for_each] in H. apply bind_ok_inv in H as (hm1 & Hl & H).
    destruct (IH _ H Hab) as [H1 | (line & Hin & Hp & Hg)].
    + unfold health_line in Hl.
      destruct (PyStr.startswith l gauge_prefix) eqn:Hs.
      * destruct (parse_gauge E l) as [[a' b']|e] eqn:Hg.
        -- injection Hl as <-.
           destruct (decide (a' = a)) as [->|Hne].
           ++ rewrite lookup_insert_eq in H1. injection H1 as ->.
              right. exists l. split; [left|done].
           ++ rewrite lookup_insert_ne in H1 by done. by left.
        -- destruct e; try discriminate; injection Hl as <-; by left.
      * injection Hl as <-. by left.
    + right. exists line. split; [by right|done].
Qed.

(** X1. Whatever the metrics text, the parser returns a map, and every
    binding of the map was read from a line of the text that starts with
    the gauge name and a brace: a text without such a line gives the empty
    map. *)
Theorem metrics_parser_total_and_sound (E : env) (metrics_text : string) :
  exists hm,
    parse_health E metrics_text = Ok hm /\
    forall a b, hm !! a = Some b ->
      exists line, line ∈ PyStr.splitlines metrics_text /\
                   PyStr.startswith line gauge_prefix = true /\
                   parse_gauge E line = Ok (a, b).
Proof.
  destruct (parse_health_total E metrics_text) as [hm Hhm].
  exists hm. split; [exact Hhm|]. intros a b Hab.
  destruct (health_lines_sound E _ ∅ hm a b Hhm Hab) as [H|H]; [|exact H].
  by rewrite lookup_empty in H.
Qed.

Lemma split_go_absent (sep s : string) :
  contains s sep = false -> PyStr.split_go sep s 0 = [s].
Proof.
  induction s as [|c s IH]; [reflexivity|].
  cbn [contains PyStr.split_go]. intros H. apply orb_false_elim in H as [-> H].
  by rewrite (IH H).
Qed.

Lemma skipped_line_no_effect (E : env) (hm : gmap string bool) (line : string) :
  skipped_line E line = true -> health_line E hm line = Ok hm.
Proof.
  unfold skipped_line, health_line. intros H.
  destruct (PyStr.startswith line gauge_prefix); [|reflexivity]. simpl in H.
  destruct (parse_gauge E line) as [[a b]|e] eqn:Hg.
  - exfalso. unfold parse_gauge in Hg.
    change (PyStr.split line upstream_label)
      with (Ok (PyStr.split_go upstream_label line 0)) in Hg.
    cbn [mbind result_bind] in Hg.
    apply orb_prop in H as [H|H].
    + apply negb_true_iff in H. rewrite (split_go_absent _ _ H) in Hg. discriminate Hg.
    + ok_inv Hg. unfold PyStr.index_last in *.
      destruct (last (PyStr.split_ws line)) as [tok|]; [|discriminate].
      match goal with Ht : Ok tok = Ok _ |- _ => injection Ht as <- end.
      unfold float_of_str in *. destruct (py_float E tok); discriminate.
  - apply parse_gauge_exn in Hg as [-> | ->]; reflexivity.
Qed.

(** X2. A line that does not start with the gauge name and a brace, or
    has no [upstream] label, or whose last token [float] rejects, is
    skipped: the result is the one for the text without that line, so the
    lines after it are still read. *)
Theorem skipped_line_dropped (E : env) (metrics_text metrics_text' : string)
    (before after : list string) (line : string) :
  PyStr.splitlines metrics_text = before ++ line :: after ->
  PyStr.splitlines metrics_text' = before ++ after ->
  skipped_line E line = true ->
  parse_health E metrics_text = parse_health E metrics_text'.
Proof.
  intros H1 H2 Hskip. unfold parse_health. rewrite H1, H2, !for_each_app.
  destruct (for_each (health_line E) before ∅) as [hm|e]; [|reflexivity].
  cbn [mbind result_bind for_each]. by rewrite (skipped_line_no_effect E hm line Hskip).
Qed.

Lemma skipped_line_dropped_witness :
  parse_health bare_env
    (gauge_line api_dial "0" +:+ newline +:+
     gauge_line "localhost:8080" "up" +:+ newline +:+
     gauge_line api_dial "1" +:+ newline)
  = parse_health bare_env
      (gauge_line api_dial "0" +:+ newline +:+ gauge_line api_dial "1" +:+ newline).
Proof.
  apply (skipped_line_dropped bare_env _ _
           [gauge_line api_dial "0"] [gauge_line api_dial "1"]
           (gauge_line "localhost:8080" "up"));
    reflexivity.
Defined.

(** ** The socket path of a dial string *)

Lemma contains_not_startswith (s needle : string) :
  contains s needle = false -> PyStr.startswith s needle = false.
Proof. destruct s; cbn [contains]; intros H; by apply orb_false_elim in H as [H _]. Qed.

Lemma sock_file_unix_dial (path : string) :
  contains path "unix/" = false ->
  sock_file_of (JStr ("unix/" +:+ path)) = Ok path.
Proof. intros H. by rewrite (sock_file_prefix_rewrite ("unix/" +:+ path)). Qed.

Lemma sock_file_other_dial (sock : string) :
  contains sock "unix/" = false ->
  sock_file_of (JStr sock) = Ok sock.
Proof.
  intros H. unfold sock_file_of, str_replace, PyStr.replace.
  cbn [mbind result_bind].
  rewrite (replace_go_absent _ _ _ H).
  by rewrite (replace_go_absent _ _ _ (contains_longer _ H)).
Qed.

(** X7. In one pass, for a route whose dial string is [unix/] followed by
    a path, or the path alone, where [unix/] does not occur in the path,
    the [socket] of the record is that path and [socket_exists] tells
    whether the path exists. *)
Theorem socket_of_dial (E : env) (f : fetched) (out : json) (rs : list json) :
  get_status E f = Ok out ->
  py_iter (routes_of f) = Ok rs ->
  exists recs,
    field out "services" = Some (JList recs) /\
    Forall2 (fun route r =>
      forall path, contains path "unix/" = false ->
        (select_backend route = Ok (JStr ("unix/" +:+ path)) \/
         select_backend route = Ok (JStr path)) ->
        field r "socket" = Some (JStr path) /\
        field r "socket_exists" = Some (JBool (os_path_exists E path)))
      rs recs.
Proof.
  intros Hout Hrs.
  apply get_status_inv in Hout
    as (hm & us & um & rs' & recs & tls & dns
        & _ & _ & _ & Hrs' & Hrecs & _ & _ & ->).
  rewrite Hrs in Hrs'. injection Hrs' as <-.
  exists recs. split; [reflexivity|].
  eapply Forall2_impl; [exact Hrecs|].
  intros route r Hr path Hpath Hsel. cbn beta in Hr.
  apply service_record_inv in Hr
    as (rid & hosts & sock & sf & rq & fl & _ & Hsock & Hsf & ->).
  assert (Hfile : sf = path).
  { destruct Hsel as [Hsel|Hsel]; rewrite Hsel in Hsock; injection Hsock as <-.
    - rewrite (sock_file_unix_dial path Hpath) in Hsf. by injection Hsf.
    - rewrite (sock_file_other_dial path Hpath) in Hsf. by injection Hsf. }
  subst sf. split; reflexivity.
Qed.

Lemma socket_of_dial_witness :
  exists recs,
    field demo_output "services" = Some (JList recs) /\
    Forall2 (fun route r =>
      forall path, contains path "unix/" = false ->
        (select_backend route = Ok (JStr ("unix/" +:+ path)) \/
         select_backend route = Ok (JStr path)) ->
        field r "socket" = Some (JStr path) /\
        field r "socket_exists" = Some (JBool (os_path_exists bare_env path)))
      demo_routes recs.
Proof.
  apply (socket_of_dial bare_env demo_fetched demo_output demo_routes);
    reflexivity.
Defined.

(** ** The route the dashboard registers *)

Lemma registration_backend (domain : string) :
  select_backend (registration_route domain) = Ok (JStr ("unix/" +:+ SOCK_PATH)).
Proof. reflexivity. Qed.

Lemma registration_hosts (domain : string) :
  (matches ← dict_get (registration_route domain) "match" (JList []);
   ms ← py_iter matches;
   for_each extend_hosts ms []) = Ok [JStr (ROUTE_ID +:+ "." +:+ domain)].
Proof. reflexivity. Qed.

(** X11. In one pass the route that [register_with_caddy] posts for a
    domain is listed with the identifier [dev-mesh], the single host
    [dev-mesh.] followed by the domain, and the socket of the dashboard,
    [SOCK_PATH], probed as such. *)
Theorem registered_route_read_back (E : env) (f : fetched) (out : json) (rs : list json) :
  get_status E f = Ok out ->
  py_iter (routes_of f) = Ok rs ->
  exists recs,
    field out "services" = Some (JList recs) /\
    Forall2 (fun route r =>
      forall domain, route = registration_route domain ->
        field r "id" = Some (JStr ROUTE_ID) /\
        field r "hosts" = Some (JList [JStr (ROUTE_ID +:+ "." +:+ domain)]) /\
        field r "socket" = Some (JStr SOCK_PATH) /\
        field r "socket_exists" = Some (JBool (path_exists E SOCK_PATH)))
      rs recs.
Proof.
  intros Hout Hrs.
  apply get_status_inv in Hout
    as (hm & us & um & rs' & recs & tls & dns
        & _ & _ & _ & Hrs' & Hrecs & _ & _ & ->).
  rewrite Hrs in Hrs'. injection Hrs' as <-.
  exists recs. split; [reflexivity|].
  eapply Forall2_impl; [exact Hrecs|].
  intros route r Hr domain ->. cbn beta in Hr.
  apply service_record_inv_steps in Hr
    as (rid & matches & ms & hosts & sock & sf & rq & fl
        & Hid & Hmatches & Hms & Hhosts & Hsock & Hsf & _ & _ & ->).
  rewrite registration_backend in Hsock. injection Hsock as <-.
  assert (Hfile : sock_file_of (JStr ("unix/" +:+ SOCK_PATH)) = Ok SOCK_PATH)
    by reflexivity.
  rewrite Hfile in Hsf. injection Hsf as <-.
  pose proof (registration_hosts domain) as Hh.
  rewrite Hmatches in Hh. cbn [mbind result_bind] in Hh.
  rewrite Hms in Hh. cbn [mbind result_bind] in Hh.
  rewrite Hhosts in Hh. injection Hh as ->.
  assert (Hrid : rid = JStr ROUTE_ID) by (by injection Hid).
  subst rid. repeat split.
Qed.

Lemma registered_route_read_back_witness :
  exists recs,
    field demo_output "services" = Some (JList recs) /\
    Forall2 (fun route r =>
      forall domain, route = registration_route domain ->
        field r "id" = Some (JStr ROUTE_ID) /\
        field r "hosts" = Some (JList [JStr (ROUTE_ID +:+ "." +:+ domain)]) /\
        field r "socket" = Some (JStr SOCK_PATH) /\
        field r "socket_exists" = Some (JBool (path_exists bare_env SOCK_PATH)))
      demo_routes recs.
Proof.
  apply (registered_route_read_back bare_env demo_fetched demo_output demo_routes);
    reflexivity.
Defined.

(** ** The admin API out of reach *)

Lemma caddy_get_no_answer (A : admin_api) (path : string) :
  no_answer (urlopen A (CADDY_ADMIN +:+ path)) = true -> caddy_get A path = JNull.
Proof.
  unfold caddy_get, no_answer. destruct (urlopen A _) as [|status body]; [done|].
  intros H. apply negb_true_iff in H. by rewrite H.
Qed.

Lemma caddy_get_text_no_answer (A : admin_api) (path : string) :
  no_answer (urlopen A (CADDY_ADMIN +:+ path)) = true -> caddy_get_text A path = None.
Proof.
  unfold caddy_get_text, no_answer. destruct (urlopen A _) as [|status body]; [done|].
  intros H. apply negb_true_iff in H. by rewrite H.
Qed.

(** X12. When every request to the admin API fails or is answered with a
    status other than 200, [get_status] returns the empty aggregate and
    [discover_domain] returns [None]. *)
Theorem admin_api_out_of_reach (A : admin_api) (E : env) :
  (forall url, no_answer (urlopen A url) = true) ->
  get_status_from A E =
    Ok (JDict [("services", JList []);
               ("tls_domains", JList []);
               ("dns", JDict [("domains", JDict []); ("ipv4", JBool false);
                              ("ipv6", JBool false)])]) /\
  discover_domain A = Ok None.
Proof.
  intros H. unfold get_status_from, discover_domain, fetch_all.
  rewrite !caddy_get_no_answer, caddy_get_text_no_answer by apply H.
  split; reflexivity.
Qed.

Lemma admin_api_out_of_reach_witness :
  get_status_from api_down bare_env =
    Ok (JDict [("services", JList []);
               ("tls_domains", JList []);
               ("dns", JDict [("domains", JDict []); ("ipv4", JBool false);
                              ("ipv6", JBool false)])]) /\
  discover_domain api_down = Ok None.
Proof.
  apply (admin_api_out_of_reach api_down bare_env). intros url. reflexivity.
Defined.

(** ** [discover_domain] *)

Lemma first_subject_ok (acc : list json) (p : json) :
  policy_ok p = true ->
  first_subject acc p = Ok (acc ++ option_list (head (subjects_of p))).
Proof.
  destruct p as [| | | | | |d]; try discriminate.
  unfold policy_ok, opt_field, first_subject, subjects_of, subscript. simpl.
  destruct (dict_lookup d "subjects") as [subjects|]; simpl.
  - destruct subjects as [| | | | |l|]; try discriminate. intros _.
    destruct l as [|x l]; simpl; [by rewrite app_nil_r | reflexivity].
  - by rewrite app_nil_r.
Qed.

Lemma first_subjects_loop (ps : list json) (acc : list json) :
  forallb policy_ok ps = true ->
  for_each first_subject ps acc = Ok (acc ++ omap (fun p => head (subjects_of p)) ps).
Proof.
  revert acc. induction ps as [|p ps IH]; intros acc Hps.
  - simpl. by rewrite app_nil_r.
  - simpl in Hps. apply andb_prop in Hps as [Hp Hps]. cbn [for_each].
    rewrite (first_subject_ok acc p Hp). cbn [mbind result_bind].
    rewrite (IH _ Hps). f_equal. cbn [omap list_omap].
    destruct (head (subjects_of p)); simpl; by rewrite <- app_assoc.
Qed.

(** On a configuration of the documented shape the loop goes through
    [candidate_subjects]. *)
Lemma discover_domain_candidates (tls : json) :
  tls_ok tls = true ->
  discover_domain_in tls = first_wildcard (candidate_subjects tls).
Proof.
  destruct tls as [| | | | | |d]; try discriminate. intros Hok.
  destruct (tls_policies_ok d Hok) as [Hp Hps].
  unfold discover_domain_in, candidate_subjects, first_subjects.
  destruct d as [|kv d'] eqn:Hd; [reflexivity|]. rewrite <- Hd in *.
  assert (Htruthy : truthy (JDict d) = true) by (by rewrite Hd).
  rewrite Htruthy.
  assert (Ha : (certificates ← dict_get (JDict d) "certificates" (JDict []);
                dict_get certificates "automate" JNull)
               = Ok match automate_of (JDict d) with
                    | [] => match field (JDict d) "certificates" ≫= fun c => field c "automate" with
                            | Some v => v
                            | None => JNull
                            end
                    | l => JList l
                    end).
  { clear -Hok. unfold tls_ok, automate_of, opt_field in *. simpl in *.
    apply andb_prop in Hok as [Hc _].
    destruct (dict_lookup d "certificates") as [c|]; simpl; [|reflexivity].
    destruct c as [| | | | | |c]; try discriminate. simpl in *.
    destruct (dict_lookup c "automate") as [a|]; simpl; [|reflexivity].
    destruct a as [| | | | |l|]; try discriminate. by destruct l. }
  apply bind_ok_inv in Ha as (c & Hc & Ha). rewrite Hc. cbn [mbind result_bind].
  rewrite Ha. cbn [mbind result_bind].
  destruct (automate_of (JDict d)) as [|subject more] eqn:Hauto.
  - assert (Hfalsy : truthy match field (JDict d) "certificates" ≫= (fun c0 => field c0 "automate") with
                            | Some v => v
                            | None => JNull
                            end = false).
    { clear -Hok Hauto. unfold tls_ok, automate_of, opt_field in *. simpl in *.
      apply andb_prop in Hok as [Hc _].
      destruct (dict_lookup d "certificates") as [c|]; simpl; [|reflexivity].
      destruct c as [| | | | | |c]; try discriminate. simpl in *.
      destruct (dict_lookup c "automate") as [a|]; simpl; [|reflexivity].
      destruct a as [| | | | |l|]; try discriminate. by subst l. }
    rewrite Hfalsy.
    apply bind_ok_inv in Hp as (a & Hauto' & Hp). rewrite Hauto'. cbn [mbind result_bind].
    rewrite Hp. cbn [mbind result_bind py_iter].
    rewrite (first_subjects_loop _ [] Hps). reflexivity.
  - reflexivity.
Qed.

Lemma first_wildcard_found (pre post : list json) (d : string) :
  forallb plain_subject pre = true ->
  first_wildcard (pre ++ JStr ("*." +:+ d) :: post) = Ok (Some d).
Proof.
  induction pre as [|v pre IH]; intros Hpre; [reflexivity|].
  simpl in Hpre. apply andb_prop in Hpre as [Hv Hpre].
  unfold plain_subject in Hv. apply andb_prop in Hv as [Hs Hw].
  destruct v as [| | | |s| |]; try discriminate.
  apply negb_true_iff in Hw. cbn [is_wildcard] in Hw.
  cbn [app first_wildcard]. rewrite Hw. by apply IH.
Qed.

(** X8. On a TLS configuration of the documented shape, when the subjects
    looked at (the list given for automation if it is not empty, otherwise
    the first subject of each policy) start with strings that are no
    wildcards and then have a subject that starts with an asterisk and a
    dot, [discover_domain] returns that subject without these two
    characters. *)
Theorem discover_domain_first_wildcard (tls : json) (pre post : list json) (d : string) :
  tls_ok tls = true ->
  candidate_subjects tls = pre ++ JStr ("*." +:+ d) :: post ->
  forallb plain_subject pre = true ->
  discover_domain_in tls = Ok (Some d).
Proof.
  intros Hok Hc Hpre. rewrite (discover_domain_candidates tls Hok), Hc.
  by apply first_wildcard_found.
Qed.

Lemma discover_domain_first_wildcard_witness :
  discover_domain_in automate_tls = Ok (Some "a.example.dev").
Proof.
  apply (discover_domain_first_wildcard automate_tls
           [JStr "mesh.example.dev"] [JStr "*.b.example.dev"] "a.example.dev");
    reflexivity.
Defined.

Lemma first_wildcard_none (subjects : list json) :
  forallb plain_subject subjects = true -> first_wildcard subjects = Ok None.
Proof.
  induction subjects as [|v l IH]; intros H; [reflexivity|].
  simpl in H. apply andb_prop in H as [Hv H].
  unfold plain_subject in Hv. apply andb_prop in Hv as [Hs Hw].
  destruct v as [| | | |s| |]; try discriminate.
  apply negb_true_iff in Hw. cbn [is_wildcard] in Hw.
  cbn [first_wildcard]. rewrite Hw. by apply IH.
Qed.

(** X10. On a TLS configuration of the documented shape without subjects
    given for automation, [discover_domain] reads the first subject of each
    policy only: when these are strings and none is a wildcard it returns
    [None], whatever the other subjects of the policies are. *)
Theorem discover_domain_first_subjects_only (tls : json) :
  tls_ok tls = true ->
  automate_of tls = [] ->
  forallb plain_subject (first_subjects tls) = true ->
  discover_domain_in tls = Ok None.
Proof.
  intros Hok Hauto Hfirst. rewrite (discover_domain_candidates tls Hok).
  unfold candidate_subjects. rewrite Hauto. by apply first_wildcard_none.
Qed.

Lemma discover_domain_first_subjects_only_witness :
  discover_domain_in second_subject_tls = Ok None.
Proof.
  apply (discover_domain_first_subjects_only second_subject_tls); reflexivity.
Defined.

Lemma startswith_wildcard (s : string) :
  PyStr.startswith s "*." = true -> s = "*." +:+ str_drop 2 s.
Proof.
  destruct s as [|c1 s]; [discriminate|]. destruct s as [|c2 s]; cbn [PyStr.startswith].
  - destruct (Ascii.eqb c1 "*"); discriminate.
  - destruct (Ascii.eqb_spec c1 "*") as [->|]; [|discriminate].
    destruct (Ascii.eqb_spec c2 ".") as [->|]; [|discriminate]. reflexivity.
Qed.

Lemma first_wildcard_member (subjects : list json) (d : string) :
  first_wildcard subjects = Ok (Some d) -> JStr ("*." +:+ d) ∈ subjects.
Proof.
  induction subjects as [|v l IH]; [discriminate|]. cbn [first_wildcard].
  destruct v as [| | | |s| |]; try discriminate.
  destruct (PyStr.startswith s "*.") eqn:Hs.
  - intros [= <-]. apply elem_of_cons. left. f_equal. symmetry.
    exact (startswith_wildcard s Hs).
  - intros H. right. by apply IH.
Qed.

Lemma first_subjects_listed (ps : list json) (x : json) :
  x ∈ omap (fun p => head (subjects_of p)) ps -> x ∈ concat (map subjects_of ps).
Proof.
  induction ps as [|p ps IH]; [by intros ?%elem_of_nil|].
  cbn [omap list_omap map concat]. rewrite elem_of_app.
  destruct (subjects_of p) as [|y l]; simpl.
  - intros H. right. by apply IH.
  - rewrite elem_of_cons. intros [->|H]; [left; left | right; by apply IH].
Qed.

(** X9. When [discover_domain] returns a domain for a TLS configuration of
    the documented shape, the wildcard subject of that domain is one of the
    [tls_domains] that [get_status] returns for the same configuration. *)
Theorem discovered_domain_listed (E : env) (f : fetched) (out : json) (d : string) :
  tls_ok (tls_config_of f) = true ->
  discover_domain_in (f_tls f) = Ok (Some d) ->
  get_status E f = Ok out ->
  exists domains,
    field out "tls_domains" = Some (JList domains) /\
    JStr ("*." +:+ d) ∈ domains.
Proof.
  intros Hok Hd Hout.
  assert (Htls : tls_config_of f = f_tls f).
  { unfold tls_config_of, py_or. unfold discover_domain_in in Hd.
    destruct (truthy (f_tls f)); [reflexivity | discriminate]. }
  rewrite Htls in Hok.
  apply get_status_inv in Hout
    as (hm & us & um & rs & recs & tls & dns
        & _ & _ & _ & _ & _ & Htd & _ & ->).
  rewrite Htls, (tls_domains_of_ok _ Hok) in Htd. injection Htd as <-.
  eexists. split; [reflexivity|].
  rewrite (discover_domain_candidates _ Hok) in Hd.
  apply first_wildcard_member in Hd. unfold candidate_subjects, first_subjects in Hd.
  destruct (automate_of (f_tls f)); [|exact Hd].
  by apply first_subjects_listed.
Qed.

Lemma discovered_domain_listed_witness :
  exists domains,
    field demo_output "tls_domains" = Some (JList domains) /\
    JStr ("*." +:+ "a.example.dev") ∈ domains.
Proof.
  apply (discovered_domain_listed bare_env demo_fetched demo_output "a.example.dev");
    reflexivity.
Defined.
